(** * The CYD stopwatch ([plantersensor/deploy/stopwatch.py])

    A shallow embedding of the [Stopwatch] class and of the parts of the
    MicroPython [time] module it calls, followed by the properties of the
    elapsed-time accumulator.

    Python integers are unbounded, so they are [Z]; Python's [//] and [%]
    with a positive divisor are [Z.div] and [Z.modulo] (both round towards
    minus infinity).  Methods are computations in a state monad over the
    object, the number of clock readings made so far, and the lines
    printed so far.

    The second part embeds the touch path of the application around the
    stopwatch ([plantersensor/deploy/main.py], with the button table of
    [display_manager.py] and the handler of [touch_handler.py]): the
    touch controller and the light sensor are inputs, indexed by the
    number of times they were read. *)

From Stdlib Require Import ZArith String List Bool Lia DecimalString.
From ExtLib Require Import Structures.Monad Structures.MonadState.
From ExtLib Require Import Data.Monads.StateMonad.
Import ListNotations.
Import MonadNotation.

Local Open Scope Z_scope.
Local Open Scope string_scope.
Local Open Scope monad_scope.

(** ** Python built-ins used by the class *)

(** [str(n)] for an integer: decimal digits, a leading minus sign for
    negative numbers. *)
Definition str (n : Z) : string :=
  NilZero.string_of_int (Z.to_int n).

Fixpoint zeros (k : nat) : string :=
  match k with
  | O => ""
  | S k' => "0" ++ zeros k'
  end.

(** The format specifier [{n:0Wd}]: the sign first, then zeros up to a
    total width of [W] characters, then the digits. *)
Definition format_0d (width : nat) (n : Z) : string :=
  let sign := if (n <? 0)%Z then "-" else "" in
  let digits := str (Z.abs n) in
  sign ++ zeros (width - String.length sign - String.length digits)%nat ++ digits.

(** ** The [time] module *)

(** The desktop stand-in installed by [test_stopwatch.py]
    ([MockTime.ticks_diff]): plain subtraction. *)
Module MockTime.

Definition ticks_diff (end_ start : Z) : Z := end_ - start.

End MockTime.

(** On the device [time.ticks_diff] is a MicroPython built-in; its code
    is not part of the repository. *)
Module WrapTime.

(** Modelled from the spec: [time.ticks_diff] of the platform, which is
    absent from the sources.  "The difference between two tick readings
    must be computed using modular (wrapping) subtraction over the
    counter's bit width"; [M] is the boundary at which the counter
    wraps. *)
Definition ticks_diff (M : Z) (now start : Z) : Z := (now - start) mod M.

End WrapTime.

(** ** The object and its environment *)

Record Stopwatch : Type := mkStopwatch {
  start_time : Z;
  total_elapsed : Z;
  running : bool
}.

(** [Stopwatch.__init__] *)
Definition __init__ : Stopwatch :=
  {| start_time := 0; total_elapsed := 0; running := false |}.

(** What a method can touch: the object, the clock (through the number
    of readings already taken) and standard output. *)
Record Env : Type := mkEnv {
  self : Stopwatch;
  ticks_read : nat;
  stdout : list string
}.

Definition fresh : Env :=
  {| self := __init__; ticks_read := 0; stdout := [] |}.

(** The dictionary returned by [get_session_stats]. *)
Module Stats.

Record t : Type := mk {
  total_ms : Z;
  hours : Z;
  minutes : Z;
  seconds : Z;
  milliseconds : Z;
  is_running : bool;
  formatted : string
}.

End Stats.

(** The dictionary returned by [get_time_components]. *)
Module Components.

Record t : Type := mk {
  hours : Z;
  minutes : Z;
  seconds : Z;
  milliseconds : Z;
  total_ms : Z
}.

End Components.

Inductive Call : Type :=
| CallStart
| CallStop.

Section Platform.

(** [time.ticks_diff] of the platform the class runs on. *)
Variable ticks_diff : Z -> Z -> Z.

(** [clock i] is the value returned by the [i]-th call of
    [time.ticks_ms()]. *)
Variable clock : nat -> Z.

Definition ticks_ms : state Env Z :=
  e <- get ;;
  put {| self := self e; ticks_read := S (ticks_read e); stdout := stdout e |} ;;
  ret (clock (ticks_read e)).

Definition print (line : string) : state Env unit :=
  e <- get ;;
  put {| self := self e; ticks_read := ticks_read e; stdout := stdout e ++ [line] |}.

Definition get_self : state Env Stopwatch :=
  e <- get ;; ret (self e).

Definition set_self (s : Stopwatch) : state Env unit :=
  e <- get ;;
  put {| self := s; ticks_read := ticks_read e; stdout := stdout e |}.

Definition set_start_time (v : Z) : state Env unit :=
  s <- get_self ;;
  set_self {| start_time := v; total_elapsed := total_elapsed s; running := running s |}.

Definition set_total_elapsed (v : Z) : state Env unit :=
  s <- get_self ;;
  set_self {| start_time := start_time s; total_elapsed := v; running := running s |}.

Definition set_running (v : bool) : state Env unit :=
  s <- get_self ;;
  set_self {| start_time := start_time s; total_elapsed := total_elapsed s; running := v |}.

(** ** The methods *)

Definition start : state Env unit :=
  s <- get_self ;;
  if negb (running s) then
    t <- ticks_ms ;;
    set_start_time t ;;
    set_running true ;;
    print "Stopwatch started"
  else ret tt.

Definition stop : state Env unit :=
  s <- get_self ;;
  if running s then
    current_time <- ticks_ms ;;
    let elapsed := ticks_diff current_time (start_time s) in
    set_total_elapsed (total_elapsed s + elapsed) ;;
    set_running false ;;
    print ("Stopwatch stopped. Session time: " ++ str elapsed ++ "ms")
  else ret tt.

Definition reset : state Env unit :=
  set_start_time 0 ;;
  set_total_elapsed 0 ;;
  set_running false ;;
  print "Stopwatch reset".

Definition get_elapsed_time : state Env Z :=
  s <- get_self ;;
  if running s then
    current_time <- ticks_ms ;;
    let current_session := ticks_diff current_time (start_time s) in
    ret (total_elapsed s + current_session)
  else ret (total_elapsed s).

Definition is_running : state Env bool :=
  s <- get_self ;; ret (running s).

Definition get_formatted_time (format_type : string) : state Env string :=
  elapsed <- get_elapsed_time ;;
  let hours := elapsed / 3600000 in
  let minutes := (elapsed mod 3600000) / 60000 in
  let seconds := (elapsed mod 60000) / 1000 in
  let milliseconds := elapsed mod 1000 in
  if String.eqb format_type "full" then
    ret (format_0d 2 hours ++ ":" ++ format_0d 2 minutes ++ ":"
         ++ format_0d 2 seconds ++ "." ++ format_0d 3 milliseconds)
  else if String.eqb format_type "short" then
    if (hours >? 0)%Z then
      ret (format_0d 2 hours ++ ":" ++ format_0d 2 minutes ++ ":"
           ++ format_0d 2 seconds)
    else
      ret (format_0d 2 minutes ++ ":" ++ format_0d 2 seconds)
  else if String.eqb format_type "minimal" then
    if (hours >? 0)%Z then
      ret (str hours ++ "h " ++ str minutes ++ "m")
    else if (minutes >? 0)%Z then
      ret (str minutes ++ "m " ++ str seconds ++ "s")
    else
      ret (str seconds ++ "." ++ format_0d 3 milliseconds ++ "s")
  else
    ret (str elapsed ++ "ms").

Definition get_session_stats : state Env Stats.t :=
  elapsed <- get_elapsed_time ;;
  s <- get_self ;;
  formatted <- get_formatted_time "full" ;;
  ret {| Stats.total_ms := elapsed;
         Stats.hours := elapsed / 3600000;
         Stats.minutes := (elapsed mod 3600000) / 60000;
         Stats.seconds := (elapsed mod 60000) / 1000;
         Stats.milliseconds := elapsed mod 1000;
         Stats.is_running := running s;
         Stats.formatted := formatted |}.

Definition lap_time : state Env Z :=
  s <- get_self ;;
  if running s then
    current_time <- ticks_ms ;;
    ret (ticks_diff current_time (start_time s))
  else ret 0.

Definition get_time_components : state Env Components.t :=
  total_ms <- get_elapsed_time ;;
  let hours := total_ms / 3600000 in
  let minutes := (total_ms mod 3600000) / 60000 in
  let seconds := (total_ms mod 60000) / 1000 in
  let milliseconds := total_ms mod 1000 in
  ret {| Components.hours := hours;
         Components.minutes := minutes;
         Components.seconds := seconds;
         Components.milliseconds := milliseconds;
         Components.total_ms := total_ms |}.

(** ** Sequences of calls *)

Definition call (c : Call) : state Env unit :=
  match c with
  | CallStart => start
  | CallStop => stop
  end.

Fixpoint run (calls : list Call) : state Env unit :=
  match calls with
  | [] => ret tt
  | c :: rest => call c ;; run rest
  end.

(** While a segment is open, its start is one of the clock readings
    already taken. *)
Definition segment_from_clock (e : Env) : Prop :=
  running (self e) = true ->
  exists i, (i < ticks_read e)%nat /\ start_time (self e) = clock i.

End Platform.

(** The clock of the two-segment scenario: readings 0 (start), 500
    (query), 500 (stop), 700 (start), 900 (stop). *)
Definition scenario_clock (i : nat) : Z :=
  nth i [0; 500; 500; 700; 900] 900.

(** A clock that steps back between two readings. *)
Definition stepping_back_clock (i : nat) : Z :=
  nth i [10; 5] 5.

(** A clock that advances by 100 ms between readings. *)
Definition steady_clock (i : nat) : Z := 100 * Z.of_nat i.

(** ** The other methods of the stopwatch, as calls without a result *)

Inductive Method : Type :=
| MStart
| MStop
| MReset
| MGetElapsedTime
| MIsRunning
| MGetFormattedTime (format_type : string)
| MGetSessionStats
| MLapTime
| MGetTimeComponents.

Definition invoke (ticks_diff : Z -> Z -> Z) (clock : nat -> Z) (m : Method)
  : state Env unit :=
  match m with
  | MStart => start clock
  | MStop => stop ticks_diff clock
  | MReset => reset
  | MGetElapsedTime => get_elapsed_time ticks_diff clock ;; ret tt
  | MIsRunning => is_running ;; ret tt
  | MGetFormattedTime format_type =>
      get_formatted_time ticks_diff clock format_type ;; ret tt
  | MGetSessionStats => get_session_stats ticks_diff clock ;; ret tt
  | MLapTime => lap_time ticks_diff clock ;; ret tt
  | MGetTimeComponents => get_time_components ticks_diff clock ;; ret tt
  end.

Fixpoint invoke_all (ticks_diff : Z -> Z -> Z) (clock : nat -> Z)
    (ms : list Method) : state Env unit :=
  match ms with
  | [] => ret tt
  | m :: rest => invoke ticks_diff clock m ;; invoke_all ticks_diff clock rest
  end.

(** A state in which an open segment started at a clock reading already
    taken and the accumulated total is not negative. *)
Definition sound (clock : nat -> Z) (e : Env) : Prop :=
  segment_from_clock clock e /\ 0 <= total_elapsed (self e).

(** Reading a zero-padded decimal field back; used to state that the
    formats lose nothing. *)
Definition read_field (s : string) : option Z :=
  option_map Z.of_uint (NilEmpty.uint_of_string s).

(** A field of the given width that reads back as the number printed. *)
Definition field_ok (width : nat) (n : Z) : bool :=
  (String.length (format_0d width n) =? width)%nat
  && match read_field (format_0d width n) with
     | Some m => (m =? n)%Z
     | None => false
     end.

(** ** The application around the stopwatch ([plantersensor/deploy/main.py],
    with the parts of [display_manager.py] and [touch_handler.py] its
    touch path goes through) *)

(** What one poll of the touch controller ([self.touch.get_touch()] of
    the XPT2046 driver) can give: nothing, a position, or an exception. *)
Inductive HwTouch : Type :=
| HwNone
| HwAt (x y : Z)
| HwError (message : string).

Module DisplayManager.

Definition screen_width : Z := 320.
Definition screen_height : Z := 240.

(** [self.buttons]: name, then [(x, y, width, height)]. *)
Definition buttons : list (string * (Z * Z * Z * Z)) :=
  [ ("start_stop", (50, 180, 100, 40));
    ("reset", (170, 180, 100, 40)) ].

Fixpoint lookup (name : string) (d : list (string * (Z * Z * Z * Z)))
  : option (Z * Z * Z * Z) :=
  match d with
  | [] => None
  | (k, v) :: rest => if String.eqb k name then Some v else lookup name rest
  end.

Definition is_button_touched (x y : Z) (button_name : string) : bool :=
  match lookup button_name buttons with
  | None => false
  | Some (bx, by_, bw, bh) =>
      ((bx <=? x) && (x <=? bx + bw) && (by_ <=? y) && (y <=? by_ + bh))%Z
  end.

End DisplayManager.

Module TouchHandler.

Record t : Type := mk {
  touch_available : bool;
  last_touch_time : Z;
  touch_debounce : Z;
  last_touch_pos : option (Z * Z)
}.

End TouchHandler.

(** The three pins of the RGB LED, by their value; the LED is active
    low: value 0 lights it.  [on()] sets the value 1 and [off()] the
    value 0, as in [MockPin]. *)
Record Leds : Type := mkLeds {
  red_led : Z;
  green_led : Z;
  blue_led : Z
}.

(** The stopwatch with its clock and output, the touch handler with the
    number of polls of the touch controller, the LED pins, and the light
    sensor with the number of its readings. *)
Record World : Type := mkWorld {
  sw_env : Env;
  touch : TouchHandler.t;
  touch_polls : nat;
  leds : Leds;
  light_sensor : bool;
  adc_reads : nat
}.

Section Application.

Variable ticks_diff : Z -> Z -> Z.
Variable clock : nat -> Z.

(** [touch_hw i] is the result of the [i]-th poll of the touch
    controller. *)
Variable touch_hw : nat -> HwTouch.

(** [adc i] is the [i]-th reading of the light sensor; [None] when the
    reading raises. *)
Variable adc : nat -> option Z.

(** A computation on the stopwatch, its clock or the output, run inside
    the application. *)
Definition lift {A : Type} (m : state Env A) : state World A :=
  mkState (fun w =>
    let (a, e) := runState m (sw_env w) in
    (a, {| sw_env := e; touch := touch w; touch_polls := touch_polls w;
           leds := leds w; light_sensor := light_sensor w;
           adc_reads := adc_reads w |})).

Definition get_touch_handler : state World TouchHandler.t :=
  w <- get ;; ret (touch w).

Definition set_touch_handler (h : TouchHandler.t) : state World unit :=
  w <- get ;;
  put {| sw_env := sw_env w; touch := h; touch_polls := touch_polls w;
         leds := leds w; light_sensor := light_sensor w;
         adc_reads := adc_reads w |}.

Definition poll_touch : state World HwTouch :=
  w <- get ;;
  put {| sw_env := sw_env w; touch := touch w; touch_polls := S (touch_polls w);
         leds := leds w; light_sensor := light_sensor w;
         adc_reads := adc_reads w |} ;;
  ret (touch_hw (touch_polls w)).

Definition set_leds (l : Leds) : state World unit :=
  w <- get ;;
  put {| sw_env := sw_env w; touch := touch w; touch_polls := touch_polls w;
         leds := l; light_sensor := light_sensor w;
         adc_reads := adc_reads w |}.

Definition read_adc : state World (option Z) :=
  w <- get ;;
  put {| sw_env := sw_env w; touch := touch w; touch_polls := touch_polls w;
         leds := leds w; light_sensor := light_sensor w;
         adc_reads := S (adc_reads w) |} ;;
  ret (adc (adc_reads w)).

(** *** [TouchHandler] *)

(** [TouchHandler._touch_interrupt] *)
Definition _touch_interrupt (x y : Z) : state World unit :=
  current_time <- lift (ticks_ms clock) ;;
  h <- get_touch_handler ;;
  if (ticks_diff current_time (TouchHandler.last_touch_time h)
      >? TouchHandler.touch_debounce h)%Z then
    set_touch_handler
      {| TouchHandler.touch_available := TouchHandler.touch_available h;
         TouchHandler.last_touch_time := current_time;
         TouchHandler.touch_debounce := TouchHandler.touch_debounce h;
         TouchHandler.last_touch_pos := Some (x, y) |} ;;
    lift (print ("Touch interrupt: (" ++ str x ++ ", " ++ str y ++ ")"))
  else ret tt.

(** [TouchHandler.get_touch] *)
Definition get_touch : state World (option (Z * Z)) :=
  h <- get_touch_handler ;;
  if negb (TouchHandler.touch_available h) then ret None
  else
    touch_data <- poll_touch ;;
    match touch_data with
    | HwError message =>
        lift (print ("Touch read error: " ++ message)) ;;
        ret None
    | HwAt x y => ret (Some (x, y))
    | HwNone =>
        match TouchHandler.last_touch_pos h with
        | Some pos =>
            set_touch_handler
              {| TouchHandler.touch_available := TouchHandler.touch_available h;
                 TouchHandler.last_touch_time := TouchHandler.last_touch_time h;
                 TouchHandler.touch_debounce := TouchHandler.touch_debounce h;
                 TouchHandler.last_touch_pos := None |} ;;
            ret (Some pos)
        | None => ret None
        end
    end.

(** [TouchHandler.is_touched] *)
Definition is_touched : state World bool :=
  h <- get_touch_handler ;;
  if negb (TouchHandler.touch_available h) then ret false
  else
    touch_data <- poll_touch ;;
    match touch_data with
    | HwAt _ _ => ret true
    | HwNone => ret false
    | HwError _ => ret false
    end.

(** [TouchHandler.get_stable_touch]; the [sleep_ms] between the two
    readings changes nothing the model holds. *)
Definition get_stable_touch : state World (option (Z * Z)) :=
  first_touch <- get_touch ;;
  match first_touch with
  | None => ret None
  | Some (x1, y1) =>
      second_touch <- get_touch ;;
      match second_touch with
      | Some (x2, y2) =>
          if (Z.abs (x1 - x2) <? 20)%Z && (Z.abs (y1 - y2) <? 20)%Z then
            ret (Some ((x1 + x2) / 2, (y1 + y2) / 2))
          else ret None
      | None => ret None
      end
  end.

(** *** [StopwatchApp] *)

(** [StopwatchApp.set_led_state] *)
Definition set_led_state (state_name : string) : state World unit :=
  w <- get ;;
  set_leds {| red_led := 1; green_led := green_led (leds w);
              blue_led := blue_led (leds w) |} ;;
  w <- get ;;
  set_leds {| red_led := red_led (leds w); green_led := 1;
              blue_led := blue_led (leds w) |} ;;
  w <- get ;;
  set_leds {| red_led := red_led (leds w); green_led := green_led (leds w);
              blue_led := 1 |} ;;
  w <- get ;;
  if String.eqb state_name "ready" then
    set_leds {| red_led := red_led (leds w); green_led := green_led (leds w);
                blue_led := 0 |}
  else if String.eqb state_name "running" then
    set_leds {| red_led := red_led (leds w); green_led := 0;
                blue_led := blue_led (leds w) |}
  else if String.eqb state_name "stopped" then
    set_leds {| red_led := 0; green_led := green_led (leds w);
                blue_led := blue_led (leds w) |}
  else ret tt.

(** The loop of [read_light_level]: [k] more readings after [readings];
    [None] when a reading raises. *)
Fixpoint take_readings (k : nat) (readings : list Z)
  : state World (option (list Z)) :=
  match k with
  | O => ret (Some readings)
  | S k' =>
      r <- read_adc ;;
      match r with
      | None => ret None
      | Some v => take_readings k' (readings ++ [v])
      end
  end.

(** [StopwatchApp.read_light_level]; without a light sensor the first
    [read] raises, and the handler returns 0. *)
Definition read_light_level : state World Z :=
  w <- get ;;
  if light_sensor w then
    result <- take_readings 5 [] ;;
    match result with
    | Some readings =>
        ret (fold_right Z.add 0 readings / Z.of_nat (List.length readings))
    | None => ret 0
    end
  else ret 0.

(** [StopwatchApp.format_time_string] *)
Definition format_time_string (elapsed_ms : Z) : string :=
  let hours := elapsed_ms / 3600000 in
  let minutes := (elapsed_ms mod 3600000) / 60000 in
  let seconds := (elapsed_ms mod 60000) / 1000 in
  let milliseconds := elapsed_ms mod 1000 in
  if (hours >? 0)%Z then
    format_0d 2 hours ++ ":" ++ format_0d 2 minutes ++ ":"
    ++ format_0d 2 seconds ++ "." ++ format_0d 3 milliseconds
  else
    format_0d 2 minutes ++ ":" ++ format_0d 2 seconds ++ "."
    ++ format_0d 3 milliseconds.

(** [StopwatchApp.show_statistics]; [and] evaluates its second operand
    only when the first holds. *)
Definition show_statistics : state World unit :=
  r <- lift is_running ;;
  positive <- (if negb r then
                 e <- lift (get_elapsed_time ticks_diff clock) ;;
                 ret (e >? 0)%Z
               else ret false) ;;
  if positive then
    elapsed <- lift (get_elapsed_time ticks_diff clock) ;;
    let total_seconds := elapsed / 1000 in
    if (total_seconds >? 0)%Z then
      let stats_text := "Total: " ++ format_time_string elapsed in
      lift (print ("Session Statistics: " ++ stats_text))
    else ret tt
  else ret tt.

(** [StopwatchApp.handle_touch_input] *)
Definition handle_touch_input : state World unit :=
  touch_coords <- get_touch ;;
  match touch_coords with
  | Some (x, y) =>
      lift (print ("Touch detected at: (" ++ str x ++ ", " ++ str y ++ ")")) ;;
      if DisplayManager.is_button_touched x y "start_stop" then
        r <- lift is_running ;;
        if r : bool then
          lift (stop ticks_diff clock) ;;
          set_led_state "stopped" ;;
          lift (print "Stopwatch stopped") ;;
          show_statistics
        else
          lift (start clock) ;;
          set_led_state "running" ;;
          lift (print "Stopwatch started")
      else if DisplayManager.is_button_touched x y "reset" then
        lift reset ;;
        set_led_state "ready" ;;
        lift (print "Stopwatch reset")
      else ret tt
  | None => ret tt
  end.

End Application.

(** What can happen to the application between two display updates: the
    touch controller raises its interrupt, or the main loop polls for a
    touch. *)
Inductive Event : Type :=
| EvInterrupt (x y : Z)
| EvPoll.

Definition handle (ticks_diff : Z -> Z -> Z) (clock : nat -> Z)
    (touch_hw : nat -> HwTouch) (ev : Event) : state World unit :=
  match ev with
  | EvInterrupt x y => _touch_interrupt ticks_diff clock x y
  | EvPoll => handle_touch_input ticks_diff clock touch_hw
  end.

Fixpoint handle_all (ticks_diff : Z -> Z -> Z) (clock : nat -> Z)
    (touch_hw : nat -> HwTouch) (evs : list Event) : state World unit :=
  match evs with
  | [] => ret tt
  | ev :: rest =>
      handle ticks_diff clock touch_hw ev ;;
      handle_all ticks_diff clock touch_hw rest
  end.

(** The LED shows the state of the stopwatch: exactly one colour is lit,
    green when and only when the stopwatch runs, and blue only over a
    stopwatch in its constructor state. *)
Definition led_matches (w : World) : Prop :=
  (leds w = {| red_led := 0; green_led := 1; blue_led := 1 |}
   /\ running (self (sw_env w)) = false)
  \/ (leds w = {| red_led := 1; green_led := 0; blue_led := 1 |}
      /\ running (self (sw_env w)) = true)
  \/ (leds w = {| red_led := 1; green_led := 1; blue_led := 0 |}
      /\ self (sw_env w) = __init__).

(** A world in which the stopwatch, the touch handler and the LED are as
    their constructors and the first [set_led_state('ready')] leave
    them. *)
Definition ready_world : World :=
  {| sw_env := fresh;
     touch := {| TouchHandler.touch_available := true;
                 TouchHandler.last_touch_time := 0;
                 TouchHandler.touch_debounce := 200;
                 TouchHandler.last_touch_pos := None |};
     touch_polls := 0;
     leds := {| red_led := 1; green_led := 1; blue_led := 0 |};
     light_sensor := true;
     adc_reads := 0 |}.

Example format_full_example :
  evalState (get_formatted_time MockTime.ticks_diff scenario_clock "full")
    {| self := {| start_time := 0; total_elapsed := 3665123; running := false |};
       ticks_read := 0; stdout := [] |} = "01:01:05.123".
Proof. reflexivity. Qed.

(** * Properties *)

(** ** Running one computation after another *)

Lemma runState_bind {A B : Type} (c : state Env A) (k : A -> state Env B) (e : Env) :
  runState (bind c k) e
  = runState (k (evalState c e)) (execState c e).
Proof.
  unfold evalState, execState. cbn. destruct (runState c e). reflexivity.
Qed.

Lemma execState_seq {A B : Type} (c : state Env A) (d : state Env B) (e : Env) :
  execState (c ;; d) e = execState d (execState c e).
Proof.
  unfold execState at 1 2. rewrite runState_bind. reflexivity.
Qed.

(** ** Basic steps of the methods *)

Section Methods.

Variable ticks_diff : Z -> Z -> Z.
Variable clock : nat -> Z.

Lemma start_when_stopped (e : Env) :
  running (self e) = false ->
  execState (start clock) e =
    {| self := {| start_time := clock (ticks_read e);
                  total_elapsed := total_elapsed (self e);
                  running := true |};
       ticks_read := S (ticks_read e);
       stdout := stdout e ++ ["Stopwatch started"] |}.
Proof.
  intros Hr. unfold execState, start. cbn. rewrite Hr. reflexivity.
Qed.

Lemma start_when_running (e : Env) :
  running (self e) = true ->
  runState (start clock) e = (tt, e).
Proof.
  intros Hr. unfold start. cbn. rewrite Hr. reflexivity.
Qed.

Lemma stop_when_running (e : Env) :
  running (self e) = true ->
  execState (stop ticks_diff clock) e =
    let elapsed := ticks_diff (clock (ticks_read e)) (start_time (self e)) in
    {| self := {| start_time := start_time (self e);
                  total_elapsed := total_elapsed (self e) + elapsed;
                  running := false |};
       ticks_read := S (ticks_read e);
       stdout := stdout e
                 ++ ["Stopwatch stopped. Session time: " ++ str elapsed ++ "ms"] |}.
Proof.
  intros Hr. unfold execState, stop. cbn. rewrite Hr. reflexivity.
Qed.

Lemma stop_when_stopped (e : Env) :
  running (self e) = false ->
  runState (stop ticks_diff clock) e = (tt, e).
Proof.
  intros Hr. unfold stop. cbn. rewrite Hr. reflexivity.
Qed.

Lemma elapsed_when_stopped (e : Env) :
  running (self e) = false ->
  runState (get_elapsed_time ticks_diff clock) e = (total_elapsed (self e), e).
Proof.
  intros Hr. unfold get_elapsed_time. cbn. rewrite Hr. reflexivity.
Qed.

Lemma elapsed_when_running (e : Env) :
  running (self e) = true ->
  runState (get_elapsed_time ticks_diff clock) e =
    (total_elapsed (self e)
       + ticks_diff (clock (ticks_read e)) (start_time (self e)),
     {| self := self e; ticks_read := S (ticks_read e); stdout := stdout e |}).
Proof.
  intros Hr. unfold get_elapsed_time. cbn. rewrite Hr. reflexivity.
Qed.

Lemma elapsed_keeps_object (e : Env) :
  self (execState (get_elapsed_time ticks_diff clock) e) = self e
  /\ stdout (execState (get_elapsed_time ticks_diff clock) e) = stdout e.
Proof.
  unfold execState. destruct (running (self e)) eqn:Hr.
  - rewrite elapsed_when_running by exact Hr. cbn. auto.
  - rewrite elapsed_when_stopped by exact Hr. cbn. auto.
Qed.

End Methods.

(** ** Queries, reset and the no-op calls *)

(** C3: [get_elapsed_time] is a query.  It leaves the object and the
    output as they were, and returns [total_elapsed] when the stopwatch is
    not running, and [total_elapsed] plus the tick difference between the
    current clock reading and [start_time] when it is running. *)
Theorem get_elapsed_time_is_query :
  forall (ticks_diff : Z -> Z -> Z) (clock : nat -> Z) (e : Env),
    self (execState (get_elapsed_time ticks_diff clock) e) = self e
    /\ stdout (execState (get_elapsed_time ticks_diff clock) e) = stdout e
    /\ evalState (get_elapsed_time ticks_diff clock) e =
       if running (self e)
       then total_elapsed (self e)
            + ticks_diff (clock (ticks_read e)) (start_time (self e))
       else total_elapsed (self e).
Proof.
  intros ticks_diff clock e.
  destruct (elapsed_keeps_object ticks_diff clock e) as [Hself Hout].
  repeat split; [exact Hself | exact Hout |].
  unfold evalState. destruct (running (self e)) eqn:Hr.
  - rewrite elapsed_when_running by exact Hr. reflexivity.
  - rewrite elapsed_when_stopped by exact Hr. reflexivity.
Qed.

(** C4: whatever the state before, after [reset] the object is back in
    its constructor state (an open segment is dropped without the clock
    being read, nothing of it is added), so [get_elapsed_time] returns 0
    and [is_running] returns false. *)
Theorem reset_clears :
  forall (ticks_diff : Z -> Z -> Z) (clock : nat -> Z) (e : Env),
    self (execState reset e) = __init__
    /\ ticks_read (execState reset e) = ticks_read e
    /\ evalState (get_elapsed_time ticks_diff clock) (execState reset e) = 0
    /\ evalState is_running (execState reset e) = false.
Proof.
  intros ticks_diff clock [s n out]. repeat split.
Qed.

(** C5: two calls of [start] in a row leave the same state as one call,
    whatever the state before; and in a running state [start] does
    nothing at all: no field is written, the clock is not read and
    nothing is printed. *)
Theorem start_idempotent :
  forall (clock : nat -> Z) (e : Env),
    execState (start clock ;; start clock) e = execState (start clock) e
    /\ start_time (self (execState (start clock ;; start clock) e))
       = start_time (self (execState (start clock) e))
    /\ (running (self e) = true -> runState (start clock) e = (tt, e)).
Proof.
  intros clock e.
  assert (Htwice : execState (start clock ;; start clock) e
                   = execState (start clock) e).
  { rewrite execState_seq.
    destruct (running (self e)) eqn:Hr.
    - unfold execState at 2 3. rewrite start_when_running by exact Hr.
      unfold execState. rewrite start_when_running by exact Hr. reflexivity.
    - rewrite (start_when_stopped clock e Hr).
      unfold execState. rewrite start_when_running; reflexivity. }
  split; [exact Htwice|]. split.
  - rewrite Htwice. reflexivity.
  - apply start_when_running.
Qed.

Lemma start_idempotent_witness :
  let e := {| self := {| start_time := 42; total_elapsed := 7; running := true |};
              ticks_read := 3; stdout := ["Stopwatch started"] |} in
  running (self e) = true
  /\ runState (start scenario_clock) e = (tt, e).
Proof.
  cbv zeta. split.
  - reflexivity.
  - apply (proj2 (proj2 (start_idempotent scenario_clock _))). reflexivity.
Defined.

(** C6: in a state that is not running, [stop] changes nothing:
    [total_elapsed], [running] and every other part of the state are as
    before. *)
Theorem stop_when_not_running_is_noop :
  forall (ticks_diff : Z -> Z -> Z) (clock : nat -> Z) (e : Env),
    running (self e) = false ->
    runState (stop ticks_diff clock) e = (tt, e)
    /\ total_elapsed (self (execState (stop ticks_diff clock) e))
       = total_elapsed (self e)
    /\ running (self (execState (stop ticks_diff clock) e)) = running (self e).
Proof.
  intros ticks_diff clock e Hr. unfold execState.
  rewrite stop_when_stopped by exact Hr. cbn. auto.
Qed.

Lemma stop_when_not_running_is_noop_witness :
  let e := {| self := {| start_time := 0; total_elapsed := 500; running := false |};
              ticks_read := 2; stdout := [] |} in
  running (self e) = false
  /\ runState (stop MockTime.ticks_diff scenario_clock) e = (tt, e).
Proof.
  cbv zeta. split.
  - reflexivity.
  - apply stop_when_not_running_is_noop. reflexivity.
Defined.

(** ** Formatting *)

Lemma evalState_bind {A B : Type} (c : state Env A) (k : A -> state Env B) (e : Env) :
  evalState (bind c k) e = evalState (k (evalState c e)) (execState c e).
Proof.
  unfold evalState at 1 2. rewrite runState_bind. reflexivity.
Qed.

(** C7: when the elapsed time is 3,665,123 ms, the formatted time is
    "01:01:05.123" in the full style, "01:01:05" in the short style and
    "1h 1m" in the minimal style; when it is 90,061,000 ms, the full style
    gives "25:01:01.000": the hours are not reduced modulo 24. *)
Theorem formatted_time_examples :
  forall (ticks_diff : Z -> Z -> Z) (clock : nat -> Z) (e : Env),
    (evalState (get_elapsed_time ticks_diff clock) e = 3665123 ->
     evalState (get_formatted_time ticks_diff clock "full") e = "01:01:05.123"
     /\ evalState (get_formatted_time ticks_diff clock "short") e = "01:01:05"
     /\ evalState (get_formatted_time ticks_diff clock "minimal") e = "1h 1m")
    /\ (evalState (get_elapsed_time ticks_diff clock) e = 90061000 ->
        evalState (get_formatted_time ticks_diff clock "full") e = "25:01:01.000").
Proof.
  intros ticks_diff clock e. unfold get_formatted_time. split.
  - intros He. repeat split; rewrite evalState_bind, He; reflexivity.
  - intros He. rewrite evalState_bind, He. reflexivity.
Qed.

Lemma formatted_time_examples_witness :
  let e1 := {| self := {| start_time := 0; total_elapsed := 3665123; running := false |};
               ticks_read := 0; stdout := [] |} in
  let e2 := {| self := {| start_time := 1000; total_elapsed := 90000000; running := true |};
               ticks_read := 0; stdout := [] |} in
  let clock := fun _ : nat => 62000 in
  (evalState (get_elapsed_time MockTime.ticks_diff clock) e1 = 3665123
   /\ evalState (get_formatted_time MockTime.ticks_diff clock "full") e1 = "01:01:05.123"
   /\ evalState (get_formatted_time MockTime.ticks_diff clock "short") e1 = "01:01:05"
   /\ evalState (get_formatted_time MockTime.ticks_diff clock "minimal") e1 = "1h 1m")
  /\ (evalState (get_elapsed_time MockTime.ticks_diff clock) e2 = 90061000
      /\ evalState (get_formatted_time MockTime.ticks_diff clock "full") e2
         = "25:01:01.000").
Proof.
  cbv zeta. split.
  - split; [reflexivity|].
    apply (proj1 (formatted_time_examples MockTime.ticks_diff (fun _ => 62000) _)).
    reflexivity.
  - split; [reflexivity|].
    apply (proj2 (formatted_time_examples MockTime.ticks_diff (fun _ => 62000) _)).
    reflexivity.
Defined.

(** C10: for a [format_type] other than 'full', 'short' and 'minimal',
    [get_formatted_time] falls through to the last line and returns the
    elapsed milliseconds in decimal followed by "ms"; like every other
    call of it, this one returns a string and leaves the object alone. *)
Theorem formatted_time_fallback :
  forall (ticks_diff : Z -> Z -> Z) (clock : nat -> Z)
         (format_type : string) (e : Env),
    format_type <> "full" ->
    format_type <> "short" ->
    format_type <> "minimal" ->
    evalState (get_formatted_time ticks_diff clock format_type) e
    = str (evalState (get_elapsed_time ticks_diff clock) e) ++ "ms"
    /\ self (execState (get_formatted_time ticks_diff clock format_type) e)
       = self e.
Proof.
  intros ticks_diff clock format_type e Hfull Hshort Hminimal.
  apply String.eqb_neq in Hfull, Hshort, Hminimal.
  unfold get_formatted_time. split.
  - rewrite evalState_bind, Hfull, Hshort, Hminimal. reflexivity.
  - unfold execState. rewrite runState_bind, Hfull, Hshort, Hminimal. cbn.
    apply (elapsed_keeps_object ticks_diff clock e).
Qed.

Lemma formatted_time_fallback_witness :
  let e := {| self := {| start_time := 700; total_elapsed := 700; running := false |};
              ticks_read := 4; stdout := [] |} in
  ("verbose" <> "full" /\ "verbose" <> "short" /\ "verbose" <> "minimal")
  /\ evalState (get_formatted_time MockTime.ticks_diff scenario_clock "verbose") e
     = "700ms".
Proof.
  cbv zeta.
  assert (Hfull : "verbose" <> "full") by discriminate.
  assert (Hshort : "verbose" <> "short") by discriminate.
  assert (Hminimal : "verbose" <> "minimal") by discriminate.
  split; [auto|].
  exact (proj1 (formatted_time_fallback MockTime.ticks_diff scenario_clock
                  "verbose" _ Hfull Hshort Hminimal)).
Defined.

(** ** Tick differences *)

Lemma wrap_ticks_diff_across_boundary (M d : Z) :
  0 <= d < M -> WrapTime.ticks_diff M (d - 10) (M - 10) = d.
Proof.
  intros Hd. unfold WrapTime.ticks_diff.
  replace (d - 10 - (M - 10)) with (d + (-1) * M) by ring.
  rewrite Z.mod_add by lia. apply Z.mod_small. exact Hd.
Qed.

Lemma wrap_ticks_diff_nonneg (M now start_tick : Z) :
  0 < M -> 0 <= WrapTime.ticks_diff M now start_tick < M.
Proof.
  intros HM. unfold WrapTime.ticks_diff. apply Z.mod_pos_bound. exact HM.
Qed.

(** The desktop stand-in does not wrap: over the same boundary it gives
    a negative difference. *)
Remark mock_ticks_diff_across_boundary (M : Z) :
  MockTime.ticks_diff 5 (M - 10) = 15 - M.
Proof.
  unfold MockTime.ticks_diff. ring.
Qed.

(** C1: with a counter that wraps at [M] (large enough to count 15
    ticks), a segment started at tick [M - 10] and read at tick 5, one
    wraparound later, lasts 15 ticks: this is the tick difference, the
    amount [stop] adds to [total_elapsed], and the amount
    [get_elapsed_time] adds to its result. *)
Theorem wraparound_segment_is_15_ticks :
  forall (M : Z) (clock : nat -> Z) (e : Env),
    15 < M ->
    running (self e) = true ->
    start_time (self e) = M - 10 ->
    clock (ticks_read e) = 5 ->
    WrapTime.ticks_diff M 5 (M - 10) = 15
    /\ total_elapsed (self (execState (stop (WrapTime.ticks_diff M) clock) e))
       = total_elapsed (self e) + 15
    /\ evalState (get_elapsed_time (WrapTime.ticks_diff M) clock) e
       = total_elapsed (self e) + 15.
Proof.
  intros M clock e HM Hr Hstart Hnow.
  assert (Hdiff : WrapTime.ticks_diff M 5 (M - 10) = 15).
  { apply (wrap_ticks_diff_across_boundary M 15). lia. }
  split; [exact Hdiff|]. split.
  - rewrite stop_when_running by exact Hr. cbn.
    rewrite Hnow, Hstart, Hdiff. reflexivity.
  - unfold evalState. rewrite elapsed_when_running by exact Hr. cbn.
    rewrite Hnow, Hstart, Hdiff. reflexivity.
Qed.

Lemma wraparound_segment_is_15_ticks_witness :
  let M := 1073741824 in
  let clock := fun _ : nat => 5 in
  let e := {| self := {| start_time := 1073741814; total_elapsed := 100;
                         running := true |};
              ticks_read := 1; stdout := ["Stopwatch started"] |} in
  (15 < M /\ running (self e) = true /\ start_time (self e) = M - 10
   /\ clock (ticks_read e) = 5)
  /\ WrapTime.ticks_diff M 5 (M - 10) = 15
  /\ total_elapsed (self (execState (stop (WrapTime.ticks_diff M) clock) e)) = 100 + 15
  /\ evalState (get_elapsed_time (WrapTime.ticks_diff M) clock) e = 100 + 15.
Proof.
  cbv zeta. split.
  - repeat split.
  - apply (wraparound_segment_is_15_ticks 1073741824 (fun _ => 5)
             {| self := {| start_time := 1073741814; total_elapsed := 100;
                           running := true |};
                ticks_read := 1; stdout := ["Stopwatch started"] |});
      reflexivity.
Defined.

(** ** What [stop] adds *)

(** C2, as the code has it: in a running state [stop] adds the tick
    difference between the current clock reading and [start_time] to
    [total_elapsed] as it is, without clamping, and clears [running];
    [total_elapsed] does not decrease across the call exactly when that
    tick difference is not negative. *)
Theorem stop_adds_tick_difference :
  forall (ticks_diff : Z -> Z -> Z) (clock : nat -> Z) (e : Env),
    running (self e) = true ->
    let elapsed := ticks_diff (clock (ticks_read e)) (start_time (self e)) in
    let e' := execState (stop ticks_diff clock) e in
    total_elapsed (self e') = total_elapsed (self e) + elapsed
    /\ running (self e') = false
    /\ (total_elapsed (self e) <= total_elapsed (self e') <-> 0 <= elapsed).
Proof.
  intros ticks_diff clock e Hr elapsed e'. subst e'.
  rewrite stop_when_running by exact Hr. cbn. fold elapsed.
  repeat split; intros; lia.
Qed.

Lemma stop_adds_tick_difference_witness :
  let e := {| self := {| start_time := 700; total_elapsed := 500; running := true |};
              ticks_read := 4; stdout := [] |} in
  let e' := execState (stop MockTime.ticks_diff scenario_clock) e in
  running (self e) = true
  /\ total_elapsed (self e') = 500 + 200
  /\ running (self e') = false.
Proof.
  cbv zeta. split; [reflexivity|].
  pose proof (stop_adds_tick_difference MockTime.ticks_diff scenario_clock
                {| self := {| start_time := 700; total_elapsed := 500;
                              running := true |};
                   ticks_read := 4; stdout := [] |} eq_refl) as H.
  cbv zeta in H. destruct H as [Htotal [Hrun _]]. split; [exact Htotal | exact Hrun].
Defined.

(** C2, as stated, fails: with the tick difference of the desktop
    stand-in and a clock that reads 10 at [start] and 5 at [stop], a
    fresh stopwatch ends with [total_elapsed] equal to -5, below the 0 it
    had before the [stop]. *)
Lemma stop_can_decrease_total_elapsed :
  let e := execState (start stepping_back_clock) fresh in
  let e' := execState (stop MockTime.ticks_diff stepping_back_clock) e in
  running (self e) = true
  /\ total_elapsed (self e) = 0
  /\ total_elapsed (self e') = -5
  /\ ~ (total_elapsed (self e) <= total_elapsed (self e')).
Proof.
  cbv zeta. repeat split. vm_compute. intros H. apply H. reflexivity.
Qed.

(** ** The two-segment scenario *)

(** C8: on a millisecond clock whose tick difference over the two
    segments is the plain difference: [start] at tick 0; at tick 500
    [get_elapsed_time] returns 500 while running; [stop] at tick 500
    leaves [total_elapsed] at 500; [start] at tick 700 and [stop] at tick
    900 leave it at 700; [get_session_stats] then reports 700 ms in
    total, 0 hours, 0 minutes, 0 seconds, 700 milliseconds, not
    running. *)
Theorem two_segment_scenario :
  forall ticks_diff : Z -> Z -> Z,
    ticks_diff 500 0 = 500 ->
    ticks_diff 900 700 = 200 ->
    let e1 := execState (start scenario_clock) fresh in
    let e2 := execState (get_elapsed_time ticks_diff scenario_clock) e1 in
    let e3 := execState (stop ticks_diff scenario_clock) e2 in
    let e4 := execState (start scenario_clock) e3 in
    let e5 := execState (stop ticks_diff scenario_clock) e4 in
    (start_time (self e1) = 0 /\ running (self e1) = true)
    /\ evalState (get_elapsed_time ticks_diff scenario_clock) e1 = 500
    /\ (total_elapsed (self e3) = 500 /\ running (self e3) = false)
    /\ (start_time (self e4) = 700 /\ running (self e4) = true)
    /\ (total_elapsed (self e5) = 700 /\ running (self e5) = false)
    /\ evalState (get_session_stats ticks_diff scenario_clock) e5
       = {| Stats.total_ms := 700;
            Stats.hours := 0;
            Stats.minutes := 0;
            Stats.seconds := 0;
            Stats.milliseconds := 700;
            Stats.is_running := false;
            Stats.formatted := "00:00:00.700" |}.
Proof.
  intros ticks_diff H500 H200. cbv zeta.
  unfold evalState, execState. cbn.
  rewrite H500. cbn. rewrite H200. cbn.
  repeat split.
Qed.

Lemma two_segment_scenario_witness :
  (MockTime.ticks_diff 500 0 = 500 /\ MockTime.ticks_diff 900 700 = 200)
  /\ total_elapsed
       (self (execState
                (start scenario_clock ;;
                 get_elapsed_time MockTime.ticks_diff scenario_clock ;;
                 stop MockTime.ticks_diff scenario_clock ;;
                 start scenario_clock ;;
                 stop MockTime.ticks_diff scenario_clock) fresh)) = 700.
Proof.
  split; [split; reflexivity|].
  pose proof (two_segment_scenario MockTime.ticks_diff eq_refl eq_refl) as H.
  cbv zeta in H. destruct H as (_ & _ & _ & _ & [H _] & _).
  exact H.
Defined.

(** ** Monotonicity over sequences of [start] and [stop] *)

Section Monotone.

Variable ticks_diff : Z -> Z -> Z.
Variable clock : nat -> Z.

(** The clock does not go back, as [ticks_diff] measures it: a later
    reading is never before an earlier one. *)
Hypothesis clock_nondecreasing :
  forall i j : nat, (i <= j)%nat -> 0 <= ticks_diff (clock j) (clock i).

Lemma run_app (before after : list Call) (e : Env) :
  execState (run ticks_diff clock (before ++ after)) e
  = execState (run ticks_diff clock after)
      (execState (run ticks_diff clock before) e).
Proof.
  revert e. induction before as [|c rest IH]; intros e.
  - reflexivity.
  - change (run ticks_diff clock ((c :: rest) ++ after))
      with (call ticks_diff clock c ;; run ticks_diff clock (rest ++ after)).
    change (run ticks_diff clock (c :: rest))
      with (call ticks_diff clock c ;; run ticks_diff clock rest).
    rewrite !execState_seq. apply IH.
Qed.

Lemma call_keeps_order (c : Call) (e : Env) :
  segment_from_clock clock e ->
  segment_from_clock clock (execState (call ticks_diff clock c) e)
  /\ total_elapsed (self e)
     <= total_elapsed (self (execState (call ticks_diff clock c) e)).
Proof.
  intros Hseg. destruct c; cbn [call]; destruct (running (self e)) eqn:Hr.
  - unfold execState. rewrite start_when_running by exact Hr. cbn.
    split; [exact Hseg | lia].
  - rewrite start_when_stopped by exact Hr. split.
    + intros _. exists (ticks_read e). cbn. split; [lia | reflexivity].
    + cbn. lia.
  - rewrite stop_when_running by exact Hr. cbn. split.
    + intros Habs. cbn in Habs. discriminate.
    + destruct (Hseg Hr) as [i [Hi Hstart]]. cbn. rewrite Hstart.
      assert (0 <= ticks_diff (clock (ticks_read e)) (clock i)).
      { apply clock_nondecreasing. lia. }
      lia.
  - unfold execState. rewrite stop_when_stopped by exact Hr. cbn.
    split; [exact Hseg | lia].
Qed.

Lemma run_keeps_order (calls : list Call) (e : Env) :
  segment_from_clock clock e ->
  segment_from_clock clock (execState (run ticks_diff clock calls) e)
  /\ total_elapsed (self e)
     <= total_elapsed (self (execState (run ticks_diff clock calls) e)).
Proof.
  revert e. induction calls as [|c rest IH]; intros e Hseg.
  - cbn. split; [exact Hseg | lia].
  - change (run ticks_diff clock (c :: rest))
      with (call ticks_diff clock c ;; run ticks_diff clock rest).
    rewrite execState_seq.
    destruct (call_keeps_order c e Hseg) as [Hseg' Hle].
    destruct (IH _ Hseg') as [Hseg'' Hle'].
    split; [exact Hseg'' | lia].
Qed.

Lemma stop_states_ordered (before after : list Call) (e0 : Env) :
  running (self e0) = false ->
  let e1 := execState (run ticks_diff clock before) e0 in
  let e2 := execState (run ticks_diff clock (before ++ after)) e0 in
  running (self e1) = false ->
  running (self e2) = false ->
  evalState (get_elapsed_time ticks_diff clock) e1
  <= evalState (get_elapsed_time ticks_diff clock) e2.
Proof.
  intros Hr0 e1 e2 Hr1 Hr2. subst e2. rewrite run_app in Hr2 |- *. fold e1 in Hr2 |- *.
  unfold evalState. rewrite !elapsed_when_stopped by assumption. cbn.
  assert (Hseg0 : segment_from_clock clock e0).
  { intros Habs. congruence. }
  destruct (run_keeps_order before e0 Hseg0) as [Hseg1 _]. fold e1 in Hseg1.
  apply (run_keeps_order after e1 Hseg1).
Qed.

End Monotone.

(** C9: take any finite sequence of [start] and [stop] calls on a
    stopwatch that begins stopped, with a clock that never goes back as
    the platform's tick difference measures it (a later reading minus an
    earlier one is not negative).  Whenever the stopwatch is stopped
    after a prefix of the sequence and stopped again after a longer
    prefix, [get_elapsed_time] at the later point is at least what it was
    at the earlier one. *)
Theorem elapsed_monotone_over_stop_states :
  forall (ticks_diff : Z -> Z -> Z) (clock : nat -> Z),
    (forall i j : nat, (i <= j)%nat -> 0 <= ticks_diff (clock j) (clock i)) ->
    forall (before after : list Call) (e0 : Env),
      running (self e0) = false ->
      let e1 := execState (run ticks_diff clock before) e0 in
      let e2 := execState (run ticks_diff clock (before ++ after)) e0 in
      running (self e1) = false ->
      running (self e2) = false ->
      evalState (get_elapsed_time ticks_diff clock) e1
      <= evalState (get_elapsed_time ticks_diff clock) e2.
Proof.
  intros ticks_diff clock Hclock before after e0.
  apply stop_states_ordered. exact Hclock.
Qed.

Lemma elapsed_monotone_over_stop_states_witness :
  let before := [CallStart; CallStop] in
  let after := [CallStart; CallStart; CallStop; CallStop] in
  (forall i j : nat, (i <= j)%nat ->
     0 <= MockTime.ticks_diff (steady_clock j) (steady_clock i))
  /\ evalState (get_elapsed_time MockTime.ticks_diff steady_clock)
       (execState (run MockTime.ticks_diff steady_clock before) fresh) = 100
  /\ evalState (get_elapsed_time MockTime.ticks_diff steady_clock)
       (execState (run MockTime.ticks_diff steady_clock (before ++ after)) fresh) = 200
  /\ evalState (get_elapsed_time MockTime.ticks_diff steady_clock)
       (execState (run MockTime.ticks_diff steady_clock before) fresh)
     <= evalState (get_elapsed_time MockTime.ticks_diff steady_clock)
          (execState (run MockTime.ticks_diff steady_clock (before ++ after)) fresh).
Proof.
  cbv zeta.
  assert (Hclock : forall i j : nat, (i <= j)%nat ->
            0 <= MockTime.ticks_diff (steady_clock j) (steady_clock i)).
  { intros i j Hij. unfold MockTime.ticks_diff, steady_clock. lia. }
  split; [exact Hclock|]. split; [reflexivity|]. split; [reflexivity|].
  apply (elapsed_monotone_over_stop_states MockTime.ticks_diff steady_clock Hclock
           [CallStart; CallStop] [CallStart; CallStart; CallStop; CallStop] fresh);
    reflexivity.
Defined.

(** Two readings of the hypothesis of C9. *)

(** With the desktop stand-in, it holds of a clock whose readings never
    decrease. *)
Lemma mock_clock_nondecreasing (clock : nat -> Z) :
  (forall i : nat, clock i <= clock (S i)) ->
  forall i j : nat, (i <= j)%nat -> 0 <= MockTime.ticks_diff (clock j) (clock i).
Proof.
  intros Hstep i j Hij. unfold MockTime.ticks_diff.
  induction Hij as [|j Hij IH].
  - lia.
  - specialize (Hstep j). lia.
Qed.

(** With the wrapping difference, it holds of every clock. *)
Lemma wrap_clock_nondecreasing (M : Z) (clock : nat -> Z) :
  0 < M ->
  forall i j : nat, (i <= j)%nat -> 0 <= WrapTime.ticks_diff M (clock j) (clock i).
Proof.
  intros HM i j _. apply wrap_ticks_diff_nonneg. exact HM.
Qed.

(** * Further properties of the stopwatch *)

(** ** The fixed-radix decomposition *)

Lemma radix_decomposition (t : Z) :
  t = t / 3600000 * 3600000 + t mod 3600000 / 60000 * 60000
      + t mod 60000 / 1000 * 1000 + t mod 1000
  /\ 0 <= t mod 3600000 / 60000 < 60
  /\ 0 <= t mod 60000 / 1000 < 60
  /\ 0 <= t mod 1000 < 1000
  /\ (0 <= t / 3600000 <-> 0 <= t).
Proof.
  pose proof (Z.div_mod t 3600000 ltac:(lia)) as H1.
  pose proof (Z.mod_pos_bound t 3600000 ltac:(lia)) as B1.
  pose proof (Z.div_mod t 60000 ltac:(lia)) as H2.
  pose proof (Z.mod_pos_bound t 60000 ltac:(lia)) as B2.
  pose proof (Z.div_mod t 1000 ltac:(lia)) as H3.
  pose proof (Z.mod_pos_bound t 1000 ltac:(lia)) as B3.
  pose proof (Z.div_mod (t mod 3600000) 60000 ltac:(lia)) as H4.
  pose proof (Z.mod_pos_bound (t mod 3600000) 60000 ltac:(lia)) as B4.
  pose proof (Z.div_mod (t mod 60000) 1000 ltac:(lia)) as H5.
  pose proof (Z.mod_pos_bound (t mod 60000) 1000 ltac:(lia)) as B5.
  assert (E1 : (t mod 3600000) mod 60000 = t mod 60000).
  { apply (Z.mod_unique t 60000 (60 * (t / 3600000) + t mod 3600000 / 60000));
      [left; lia | lia]. }
  assert (E2 : (t mod 60000) mod 1000 = t mod 1000).
  { apply (Z.mod_unique t 1000 (60 * (t / 60000) + t mod 60000 / 1000));
      [left; lia | lia]. }
  repeat split; try lia.
Qed.

(** X1: whatever the state, the components returned by
    [get_time_components] add up to the elapsed time again
    (hours * 3,600,000 + minutes * 60,000 + seconds * 1,000 +
    milliseconds), with minutes and seconds in 0..59 and milliseconds in
    0..999; this also holds of a negative elapsed time, whose sign is
    carried by the hours alone. *)
Theorem time_components_recompose :
  forall (ticks_diff : Z -> Z -> Z) (clock : nat -> Z) (e : Env),
    let c := evalState (get_time_components ticks_diff clock) e in
    Components.total_ms c = evalState (get_elapsed_time ticks_diff clock) e
    /\ Components.total_ms c
       = Components.hours c * 3600000 + Components.minutes c * 60000
         + Components.seconds c * 1000 + Components.milliseconds c
    /\ 0 <= Components.minutes c < 60
    /\ 0 <= Components.seconds c < 60
    /\ 0 <= Components.milliseconds c < 1000
    /\ (0 <= Components.hours c <-> 0 <= Components.total_ms c).
Proof.
  intros ticks_diff clock e c. subst c. unfold get_time_components.
  rewrite evalState_bind. cbn.
  split; [reflexivity|].
  apply radix_decomposition.
Qed.

(** ** Lap time, elapsed time and [stop] *)

Section MoreMethods.

Variable ticks_diff : Z -> Z -> Z.
Variable clock : nat -> Z.

Lemma lap_when_running (e : Env) :
  running (self e) = true ->
  runState (lap_time ticks_diff clock) e =
    (ticks_diff (clock (ticks_read e)) (start_time (self e)),
     {| self := self e; ticks_read := S (ticks_read e); stdout := stdout e |}).
Proof.
  intros Hr. unfold lap_time. cbn. rewrite Hr. reflexivity.
Qed.

Lemma lap_when_stopped (e : Env) :
  running (self e) = false ->
  runState (lap_time ticks_diff clock) e = (0, e).
Proof.
  intros Hr. unfold lap_time. cbn. rewrite Hr. reflexivity.
Qed.

Lemma elapsed_reads (e : Env) :
  execState (get_elapsed_time ticks_diff clock) e =
    {| self := self e;
       ticks_read := if running (self e) then S (ticks_read e) else ticks_read e;
       stdout := stdout e |}.
Proof.
  unfold execState. destruct (running (self e)) eqn:Hr.
  - rewrite elapsed_when_running by exact Hr. reflexivity.
  - rewrite elapsed_when_stopped by exact Hr. destruct e. reflexivity.
Qed.

Lemma formatted_reads (format_type : string) (e : Env) :
  execState (get_formatted_time ticks_diff clock format_type) e
  = execState (get_elapsed_time ticks_diff clock) e.
Proof.
  unfold execState at 1. unfold get_formatted_time. rewrite runState_bind.
  destruct (String.eqb format_type "full"); [reflexivity|].
  destruct (String.eqb format_type "short").
  { destruct (_ >? 0)%Z; reflexivity. }
  destruct (String.eqb format_type "minimal"); [|reflexivity].
  destruct (_ >? 0)%Z; [reflexivity|].
  destruct (_ >? 0)%Z; reflexivity.
Qed.

End MoreMethods.

(** X2: in every state the elapsed time is [total_elapsed] plus the lap
    time taken at the same clock reading; the lap time is 0 when the
    stopwatch is not running, and [lap_time] leaves the object and the
    output as they were. *)
Theorem elapsed_is_total_plus_lap :
  forall (ticks_diff : Z -> Z -> Z) (clock : nat -> Z) (e : Env),
    evalState (get_elapsed_time ticks_diff clock) e
    = total_elapsed (self e) + evalState (lap_time ticks_diff clock) e
    /\ evalState (lap_time ticks_diff clock) e
       = (if running (self e)
          then ticks_diff (clock (ticks_read e)) (start_time (self e))
          else 0)
    /\ self (execState (lap_time ticks_diff clock) e) = self e
    /\ stdout (execState (lap_time ticks_diff clock) e) = stdout e.
Proof.
  intros ticks_diff clock e. unfold evalState, execState.
  destruct (running (self e)) eqn:Hr.
  - rewrite elapsed_when_running, lap_when_running by exact Hr. cbn. auto.
  - rewrite elapsed_when_stopped, lap_when_stopped by exact Hr. cbn.
    repeat split. lia.
Qed.

(** ** Session statistics *)

(** X4: in a stopped state [get_session_stats] changes nothing and does
    not read the clock; its numeric fields are the components of
    [total_elapsed], they agree with [get_time_components], and its
    'formatted' field is the full format of the same value. *)
Theorem session_stats_when_stopped :
  forall (ticks_diff : Z -> Z -> Z) (clock : nat -> Z) (e : Env),
    running (self e) = false ->
    let s := evalState (get_session_stats ticks_diff clock) e in
    let c := evalState (get_time_components ticks_diff clock) e in
    execState (get_session_stats ticks_diff clock) e = e
    /\ Stats.total_ms s = total_elapsed (self e)
    /\ Stats.is_running s = false
    /\ (Stats.hours s, Stats.minutes s, Stats.seconds s, Stats.milliseconds s)
       = (Components.hours c, Components.minutes c, Components.seconds c,
          Components.milliseconds c)
    /\ Stats.formatted s
       = format_0d 2 (Stats.hours s) ++ ":" ++ format_0d 2 (Stats.minutes s)
         ++ ":" ++ format_0d 2 (Stats.seconds s) ++ "."
         ++ format_0d 3 (Stats.milliseconds s).
Proof.
  intros ticks_diff clock [[st tot r] n out] Hr s c. subst s c.
  cbn in Hr. subst r. repeat split.
Qed.

Lemma session_stats_when_stopped_witness :
  let e := {| self := {| start_time := 0; total_elapsed := 3665123; running := false |};
              ticks_read := 2; stdout := [] |} in
  running (self e) = false
  /\ evalState (get_session_stats MockTime.ticks_diff scenario_clock) e
     = {| Stats.total_ms := 3665123; Stats.hours := 1; Stats.minutes := 1;
          Stats.seconds := 5; Stats.milliseconds := 123;
          Stats.is_running := false; Stats.formatted := "01:01:05.123" |}
  /\ execState (get_session_stats MockTime.ticks_diff scenario_clock) e = e.
Proof.
  cbv zeta. split; [reflexivity|]. split; [reflexivity|].
  apply (session_stats_when_stopped MockTime.ticks_diff scenario_clock). reflexivity.
Defined.



(** X3: what [get_elapsed_time] returns is what [total_elapsed] would
    be after a [stop] at the same clock reading, in a running state as in
    a stopped one. *)
Theorem elapsed_is_total_after_stop :
  forall (ticks_diff : Z -> Z -> Z) (clock : nat -> Z) (e : Env),
    evalState (get_elapsed_time ticks_diff clock) e
    = total_elapsed (self (execState (stop ticks_diff clock) e)).
Proof.
  intros ticks_diff clock e. destruct (running (self e)) eqn:Hr.
  - rewrite stop_when_running by exact Hr. unfold evalState.
    rewrite elapsed_when_running by exact Hr. reflexivity.
  - unfold evalState, execState.
    rewrite elapsed_when_stopped, stop_when_stopped by exact Hr. reflexivity.
Qed.

(** ** The methods that only read *)

Lemma query_leaves_object (ticks_diff : Z -> Z -> Z) (clock : nat -> Z)
    (m : Method) (e : Env) :
  m <> MStart -> m <> MStop -> m <> MReset ->
  exists k : nat,
    execState (invoke ticks_diff clock m) e
    = {| self := self e; ticks_read := ticks_read e + k; stdout := stdout e |}.
Proof.
  intros Hstart Hstop Hreset.
  destruct m as [| | | | | format_type | | |]; try congruence;
    cbn [invoke]; rewrite execState_seq;
    change (execState (ret tt) ?x) with x.
  - rewrite elapsed_reads. destruct (running (self e)).
    + exists 1%nat. f_equal. lia.
    + exists 0%nat. f_equal. lia.
  - exists 0%nat. destruct e as [s n out]. cbn. f_equal. lia.
  - rewrite formatted_reads, elapsed_reads. destruct (running (self e)).
    + exists 1%nat. f_equal. lia.
    + exists 0%nat. f_equal. lia.
  - destruct e as [[st tot r] n out]. destruct r.
    + exists 2%nat. cbn. f_equal. lia.
    + exists 0%nat. cbn. f_equal. lia.
  - destruct e as [[st tot r] n out]. destruct r.
    + exists 1%nat. cbn. f_equal. lia.
    + exists 0%nat. cbn. f_equal. lia.
  - destruct e as [[st tot r] n out]. destruct r.
    + exists 1%nat. cbn. f_equal. lia.
    + exists 0%nat. cbn. f_equal. lia.
Qed.

(** X6: every method other than [start], [stop] and [reset]
    ([get_elapsed_time], [is_running], [get_formatted_time] with any
    style, [get_session_stats], [lap_time], [get_time_components]) leaves
    the three fields of the object and the output exactly as they were;
    all it can do is read the clock. *)
Theorem queries_leave_object_unchanged :
  forall (ticks_diff : Z -> Z -> Z) (clock : nat -> Z) (m : Method) (e : Env),
    m <> MStart -> m <> MStop -> m <> MReset ->
    self (execState (invoke ticks_diff clock m) e) = self e
    /\ stdout (execState (invoke ticks_diff clock m) e) = stdout e
    /\ (ticks_read e <= ticks_read (execState (invoke ticks_diff clock m) e))%nat.
Proof.
  intros ticks_diff clock m e Hstart Hstop Hreset.
  destruct (query_leaves_object ticks_diff clock m e Hstart Hstop Hreset)
    as [k Hk].
  rewrite Hk. cbn. repeat split. lia.
Qed.

Lemma queries_leave_object_unchanged_witness :
  let e := execState (start steady_clock) fresh in
  (MGetSessionStats <> MStart /\ MGetSessionStats <> MStop
   /\ MGetSessionStats <> MReset)
  /\ self (execState (invoke MockTime.ticks_diff steady_clock MGetSessionStats) e)
     = {| start_time := 0; total_elapsed := 0; running := true |}.
Proof.
  cbv zeta.
  assert (H1 : MGetSessionStats <> MStart) by discriminate.
  assert (H2 : MGetSessionStats <> MStop) by discriminate.
  assert (H3 : MGetSessionStats <> MReset) by discriminate.
  split; [auto|].
  exact (proj1 (queries_leave_object_unchanged MockTime.ticks_diff steady_clock
                  MGetSessionStats (execState (start steady_clock) fresh)
                  H1 H2 H3)).
Defined.

(** ** The elapsed time is never negative *)

Section NeverNegative.

Variable ticks_diff : Z -> Z -> Z.
Variable clock : nat -> Z.

Hypothesis clock_nondecreasing :
  forall i j : nat, (i <= j)%nat -> 0 <= ticks_diff (clock j) (clock i).

Lemma invoke_keeps_sound (m : Method) (e : Env) :
  sound clock e -> sound clock (execState (invoke ticks_diff clock m) e).
Proof.
  intros [Hseg Htot].
  assert (Hquery : m <> MStart -> m <> MStop -> m <> MReset ->
                   sound clock (execState (invoke ticks_diff clock m) e)).
  { intros H1 H2 H3.
    destruct (query_leaves_object ticks_diff clock m e H1 H2 H3) as [k Hk].
    rewrite Hk. split; [|exact Htot].
    intros Hr. cbn in Hr. destruct (Hseg Hr) as [i [Hi Hstart]].
    exists i. cbn. split; [lia | exact Hstart]. }
  destruct m; try (apply Hquery; discriminate).
  - destruct (call_keeps_order ticks_diff clock clock_nondecreasing
                CallStart e Hseg) as [Hseg' Hle].
    cbn [call] in Hseg', Hle. cbn [invoke]. split; [exact Hseg' | lia].
  - destruct (call_keeps_order ticks_diff clock clock_nondecreasing
                CallStop e Hseg) as [Hseg' Hle].
    cbn [call] in Hseg', Hle. cbn [invoke]. split; [exact Hseg' | lia].
  - destruct e as [s n out]. split.
    + intros Hr. cbn in Hr. discriminate.
    + cbn. lia.
Qed.

Lemma invoke_all_keeps_sound (ms : list Method) (e : Env) :
  sound clock e -> sound clock (execState (invoke_all ticks_diff clock ms) e).
Proof.
  revert e. induction ms as [|m rest IH]; intros e Hsound.
  - exact Hsound.
  - cbn [invoke_all]. rewrite execState_seq.
    apply IH, invoke_keeps_sound, Hsound.
Qed.

Lemma sound_elapsed_nonneg (e : Env) :
  sound clock e -> 0 <= evalState (get_elapsed_time ticks_diff clock) e.
Proof.
  intros [Hseg Htot]. unfold evalState. destruct (running (self e)) eqn:Hr.
  - rewrite elapsed_when_running by exact Hr. cbn.
    destruct (Hseg Hr) as [i [Hi Hstart]]. rewrite Hstart.
    assert (0 <= ticks_diff (clock (ticks_read e)) (clock i)).
    { apply clock_nondecreasing. lia. }
    lia.
  - rewrite elapsed_when_stopped by exact Hr. exact Htot.
Qed.

End NeverNegative.

(** X7: with a clock that never goes back as the platform's tick
    difference measures it, no sequence of method calls (start, stop,
    reset and the queries, in any order) on a stopwatch that begins
    stopped with a non-negative total makes [total_elapsed] or the result
    of [get_elapsed_time] negative. *)
Theorem elapsed_never_negative :
  forall (ticks_diff : Z -> Z -> Z) (clock : nat -> Z),
    (forall i j : nat, (i <= j)%nat -> 0 <= ticks_diff (clock j) (clock i)) ->
    forall (ms : list Method) (e0 : Env),
      running (self e0) = false ->
      0 <= total_elapsed (self e0) ->
      let e := execState (invoke_all ticks_diff clock ms) e0 in
      0 <= total_elapsed (self e)
      /\ 0 <= evalState (get_elapsed_time ticks_diff clock) e.
Proof.
  intros ticks_diff clock Hclock ms e0 Hr Htot e. subst e.
  assert (Hsound : sound clock (execState (invoke_all ticks_diff clock ms) e0)).
  { apply invoke_all_keeps_sound; [exact Hclock|].
    split; [intros Habs; congruence | exact Htot]. }
  split; [apply Hsound|].
  apply sound_elapsed_nonneg; assumption.
Qed.

Lemma elapsed_never_negative_witness :
  let ms := [MStart; MGetSessionStats; MStop; MStart; MLapTime; MReset;
             MStart; MGetFormattedTime "short"] in
  (forall i j : nat, (i <= j)%nat ->
     0 <= MockTime.ticks_diff (steady_clock j) (steady_clock i))
  /\ 0 <= evalState (get_elapsed_time MockTime.ticks_diff steady_clock)
            (execState (invoke_all MockTime.ticks_diff steady_clock ms) fresh).
Proof.
  cbv zeta.
  assert (Hclock : forall i j : nat, (i <= j)%nat ->
            0 <= MockTime.ticks_diff (steady_clock j) (steady_clock i)).
  { intros i j Hij. unfold MockTime.ticks_diff, steady_clock. lia. }
  split; [exact Hclock|].
  assert (Hzero : 0 <= total_elapsed (self fresh)) by (unfold fresh, __init__; cbn; lia).
  exact (proj2 (elapsed_never_negative MockTime.ticks_diff steady_clock Hclock
                  [MStart; MGetSessionStats; MStop; MStart; MLapTime; MReset;
                   MStart; MGetFormattedTime "short"] fresh eq_refl Hzero)).
Defined.

(** ** The shape of the formatted time *)

Lemma below_check (P : Z -> bool) (k : nat) :
  forallb P (map Z.of_nat (seq 0 k)) = true ->
  forall n : Z, 0 <= n < Z.of_nat k -> P n = true.
Proof.
  intros Hall n Hn. rewrite forallb_forall in Hall. apply Hall.
  rewrite <- (Z2Nat.id n) by lia. apply in_map, in_seq. lia.
Qed.

Lemma field_ok_spec (width : nat) (n : Z) :
  field_ok width n = true ->
  String.length (format_0d width n) = width
  /\ read_field (format_0d width n) = Some n.
Proof.
  unfold field_ok. intros H. apply andb_prop in H. destruct H as [Hlen Hread].
  apply Nat.eqb_eq in Hlen. split; [exact Hlen|].
  destruct (read_field (format_0d width n)) as [m|]; [|discriminate].
  apply Z.eqb_eq in Hread. congruence.
Qed.

Lemma two_digit_field (n : Z) :
  0 <= n < 100 ->
  String.length (format_0d 2 n) = 2%nat /\ read_field (format_0d 2 n) = Some n.
Proof.
  intros Hn. apply field_ok_spec.
  apply (below_check (field_ok 2) 100); [vm_compute; reflexivity | lia].
Qed.

Lemma three_digit_field (n : Z) :
  0 <= n < 1000 ->
  String.length (format_0d 3 n) = 3%nat /\ read_field (format_0d 3 n) = Some n.
Proof.
  intros Hn. apply field_ok_spec.
  apply (below_check (field_ok 3) 1000); [vm_compute; reflexivity | lia].
Qed.

Lemma full_format_fields (h m s ms : Z) :
  0 <= h < 100 -> 0 <= m < 100 -> 0 <= s < 100 -> 0 <= ms < 1000 ->
  let full := format_0d 2 h ++ ":" ++ format_0d 2 m ++ ":"
              ++ format_0d 2 s ++ "." ++ format_0d 3 ms in
  String.length full = 12%nat
  /\ substring 2 1 full = ":" /\ substring 5 1 full = ":"
  /\ substring 8 1 full = "."
  /\ read_field (substring 0 2 full) = Some h
  /\ read_field (substring 3 2 full) = Some m
  /\ read_field (substring 6 2 full) = Some s
  /\ read_field (substring 9 3 full) = Some ms.
Proof.
  intros Hh Hm Hs Hms.
  destruct (two_digit_field h Hh) as [Lh Rh].
  destruct (two_digit_field m Hm) as [Lm Rm].
  destruct (two_digit_field s Hs) as [Ls Rs].
  destruct (three_digit_field ms Hms) as [Lms Rms].
  destruct (format_0d 2 h) as [|h1 [|h0 [|]]]; try discriminate Lh.
  destruct (format_0d 2 m) as [|m1 [|m0 [|]]]; try discriminate Lm.
  destruct (format_0d 2 s) as [|s1 [|s0 [|]]]; try discriminate Ls.
  destruct (format_0d 3 ms) as [|d2 [|d1 [|d0 [|]]]]; try discriminate Lms.
  cbn. repeat split; assumption.
Qed.

Lemma string_app_assoc (a b c : string) : (a ++ b) ++ c = a ++ b ++ c.
Proof.
  induction a as [|ch a IH]; cbn; [reflexivity | rewrite IH; reflexivity].
Qed.

Lemma hours_below_100 (t : Z) :
  0 <= t < 360000000 -> 0 <= t / 3600000 < 100.
Proof.
  intros Ht. split.
  - apply Z.div_pos; lia.
  - apply Z.div_lt_upper_bound; lia.
Qed.

Lemma hours_positive (t : Z) : (t / 3600000 >? 0)%Z = (3600000 <=? t)%Z.
Proof.
  pose proof (Z.div_mod t 3600000 ltac:(lia)) as H.
  pose proof (Z.mod_pos_bound t 3600000 ltac:(lia)) as B.
  destruct (Z.leb_spec 3600000 t); destruct (Z.gtb_spec (t / 3600000) 0);
    try reflexivity; lia.
Qed.

(** X8: for an elapsed time from 0 up to (not including) 100 hours, the
    full format is exactly 12 characters long, with ':' at positions 2
    and 5 and '.' at position 8, and its four digit groups read back as
    the hours, minutes, seconds and milliseconds of the elapsed time. *)
Theorem full_format_reads_back :
  forall (ticks_diff : Z -> Z -> Z) (clock : nat -> Z) (e : Env),
    let t := evalState (get_elapsed_time ticks_diff clock) e in
    let full := evalState (get_formatted_time ticks_diff clock "full") e in
    0 <= t < 360000000 ->
    String.length full = 12%nat
    /\ substring 2 1 full = ":" /\ substring 5 1 full = ":"
    /\ substring 8 1 full = "."
    /\ read_field (substring 0 2 full) = Some (t / 3600000)
    /\ read_field (substring 3 2 full) = Some (t mod 3600000 / 60000)
    /\ read_field (substring 6 2 full) = Some (t mod 60000 / 1000)
    /\ read_field (substring 9 3 full) = Some (t mod 1000).
Proof.
  intros ticks_diff clock e t full Ht. subst full.
  unfold get_formatted_time. rewrite evalState_bind. fold t.
  cbn [String.eqb Ascii.eqb Bool.eqb andb]. cbv iota.
  change (evalState (ret ?x) _) with x.
  destruct (radix_decomposition t) as (_ & Hm & Hs & Hms & _).
  apply full_format_fields; [apply hours_below_100; exact Ht | lia | lia | lia].
Qed.

Lemma full_format_reads_back_witness :
  let e := {| self := {| start_time := 0; total_elapsed := 3665123; running := false |};
              ticks_read := 0; stdout := [] |} in
  let full := evalState (get_formatted_time MockTime.ticks_diff scenario_clock "full") e in
  0 <= evalState (get_elapsed_time MockTime.ticks_diff scenario_clock) e < 360000000
  /\ String.length full = 12%nat
  /\ read_field (substring 9 3 full) = Some 123.
Proof.
  cbv zeta.
  assert (Hrange : 0 <= evalState (get_elapsed_time MockTime.ticks_diff scenario_clock)
                          {| self := {| start_time := 0; total_elapsed := 3665123;
                                        running := false |};
                             ticks_read := 0; stdout := [] |} < 360000000)
    by (cbn; lia).
  split; [exact Hrange|].
  pose proof (full_format_reads_back MockTime.ticks_diff scenario_clock _ Hrange) as H.
  cbv zeta in H. destruct H as (Hlen & _ & _ & _ & _ & _ & _ & Hms).
  split; [exact Hlen | exact Hms].
Defined.

(** X9: the full format loses nothing below 100 hours: two states whose
    elapsed times lie in that range and whose full formats are equal
    have the same elapsed time. *)
Theorem full_format_injective :
  forall (ticks_diff : Z -> Z -> Z) (clock : nat -> Z) (e1 e2 : Env),
    let t1 := evalState (get_elapsed_time ticks_diff clock) e1 in
    let t2 := evalState (get_elapsed_time ticks_diff clock) e2 in
    0 <= t1 < 360000000 ->
    0 <= t2 < 360000000 ->
    evalState (get_formatted_time ticks_diff clock "full") e1
    = evalState (get_formatted_time ticks_diff clock "full") e2 ->
    t1 = t2.
Proof.
  intros ticks_diff clock e1 e2 t1 t2 H1 H2.
  unfold get_formatted_time. rewrite !evalState_bind. fold t1 t2.
  cbn [String.eqb Ascii.eqb Bool.eqb andb]. cbv iota.
  change (evalState (ret ?x) _) with x. intros Heq.
  destruct (radix_decomposition t1) as (D1 & Hm1 & Hs1 & Hms1 & _).
  destruct (radix_decomposition t2) as (D2 & Hm2 & Hs2 & Hms2 & _).
  assert (F1 := full_format_fields (t1 / 3600000) (t1 mod 3600000 / 60000)
                  (t1 mod 60000 / 1000) (t1 mod 1000)).
  assert (F2 := full_format_fields (t2 / 3600000) (t2 mod 3600000 / 60000)
                  (t2 mod 60000 / 1000) (t2 mod 1000)).
  specialize (F1 (hours_below_100 t1 H1)). specialize (F2 (hours_below_100 t2 H2)).
  do 3 (lapply F1; [clear F1; intros F1 | lia]).
  do 3 (lapply F2; [clear F2; intros F2 | lia]).
  cbv zeta in F1, F2. rewrite Heq in F1.
  destruct F1 as (_ & _ & _ & _ & A1 & B1 & C1 & E1).
  destruct F2 as (_ & _ & _ & _ & A2 & B2 & C2 & E2).
  assert (t1 / 3600000 = t2 / 3600000) by congruence.
  assert (t1 mod 3600000 / 60000 = t2 mod 3600000 / 60000) by congruence.
  assert (t1 mod 60000 / 1000 = t2 mod 60000 / 1000) by congruence.
  assert (t1 mod 1000 = t2 mod 1000) by congruence.
  lia.
Qed.

Lemma full_format_injective_witness :
  let e1 := {| self := {| start_time := 0; total_elapsed := 700; running := false |};
               ticks_read := 0; stdout := [] |} in
  let e2 := {| self := {| start_time := 200; total_elapsed := 0; running := true |};
               ticks_read := 4; stdout := [] |} in
  (0 <= evalState (get_elapsed_time MockTime.ticks_diff scenario_clock) e1 < 360000000
   /\ 0 <= evalState (get_elapsed_time MockTime.ticks_diff scenario_clock) e2 < 360000000
   /\ evalState (get_formatted_time MockTime.ticks_diff scenario_clock "full") e1
      = evalState (get_formatted_time MockTime.ticks_diff scenario_clock "full") e2)
  /\ evalState (get_elapsed_time MockTime.ticks_diff scenario_clock) e1
     = evalState (get_elapsed_time MockTime.ticks_diff scenario_clock) e2.
Proof.
  cbv zeta.
  assert (Hrange1 : 0 <= evalState (get_elapsed_time MockTime.ticks_diff scenario_clock)
                           {| self := {| start_time := 0; total_elapsed := 700;
                                         running := false |};
                              ticks_read := 0; stdout := [] |} < 360000000)
    by (cbn; lia).
  assert (Hrange2 : 0 <= evalState (get_elapsed_time MockTime.ticks_diff scenario_clock)
                           {| self := {| start_time := 200; total_elapsed := 0;
                                         running := true |};
                              ticks_read := 4; stdout := [] |} < 360000000)
    by (cbn; lia).
  split; [split; [exact Hrange1 | split; [exact Hrange2 | reflexivity]]|].
  apply (full_format_injective MockTime.ticks_diff scenario_clock);
    [exact Hrange1 | exact Hrange2 | reflexivity].
Defined.

(** ** How the styles relate *)

(** X10: from one hour on, the short format is the full format without
    its millisecond part, and [StopwatchApp.format_time_string] gives the
    full format; below one hour (a negative elapsed time included) the
    short format has no hour field and [format_time_string] is the short
    format followed by the milliseconds; and from 0 up to one hour the
    full format is that string behind the hour field "00:". *)
Theorem short_format_within_full :
  forall (ticks_diff : Z -> Z -> Z) (clock : nat -> Z) (e : Env),
    let t := evalState (get_elapsed_time ticks_diff clock) e in
    let full := evalState (get_formatted_time ticks_diff clock "full") e in
    let short := evalState (get_formatted_time ticks_diff clock "short") e in
    let ms := format_0d 3 (t mod 1000) in
    (3600000 <= t ->
     full = short ++ "." ++ ms /\ format_time_string t = full)
    /\ (t < 3600000 -> format_time_string t = short ++ "." ++ ms)
    /\ (0 <= t < 3600000 -> full = "00:" ++ short ++ "." ++ ms).
Proof.
  intros ticks_diff clock e t full short ms. subst full short ms.
  unfold get_formatted_time, format_time_string. rewrite !evalState_bind. fold t.
  cbn [String.eqb Ascii.eqb Bool.eqb andb]. cbv iota.
  rewrite hours_positive.
  split; [|split].
  - intros Ht. destruct (Z.leb_spec 3600000 t) as [_|Hlt]; [|lia].
    change (evalState (ret ?x) _) with x.
    rewrite !string_app_assoc. cbn [append]. auto.
  - intros Ht. destruct (Z.leb_spec 3600000 t) as [Hge|_]; [lia|].
    change (evalState (ret ?x) _) with x.
    rewrite !string_app_assoc. reflexivity.
  - intros Ht. destruct (Z.leb_spec 3600000 t) as [Hge|_]; [lia|].
    change (evalState (ret ?x) _) with x.
    rewrite (Z.div_small t 3600000) by lia.
    rewrite !string_app_assoc. reflexivity.
Qed.

Lemma short_format_within_full_witness :
  let e1 := {| self := {| start_time := 0; total_elapsed := 3665123; running := false |};
               ticks_read := 0; stdout := [] |} in
  let e2 := {| self := {| start_time := 0; total_elapsed := 65123; running := false |};
               ticks_read := 0; stdout := [] |} in
  (3600000 <= evalState (get_elapsed_time MockTime.ticks_diff scenario_clock) e1
   /\ format_time_string 3665123 = "01:01:05.123")
  /\ (0 <= evalState (get_elapsed_time MockTime.ticks_diff scenario_clock) e2 < 3600000
      /\ evalState (get_formatted_time MockTime.ticks_diff scenario_clock "full") e2
         = "00:" ++ "01:05" ++ "." ++ "123").
Proof.
  cbv zeta. split.
  - assert (H : 3600000 <= evalState (get_elapsed_time MockTime.ticks_diff scenario_clock)
                   {| self := {| start_time := 0; total_elapsed := 3665123;
                                 running := false |};
                      ticks_read := 0; stdout := [] |}) by (cbn; lia).
    split; [exact H|].
    exact (proj2 (proj1 (short_format_within_full MockTime.ticks_diff scenario_clock _) H)).
  - assert (H : 0 <= evalState (get_elapsed_time MockTime.ticks_diff scenario_clock)
                   {| self := {| start_time := 0; total_elapsed := 65123;
                                 running := false |};
                      ticks_read := 0; stdout := [] |} < 3600000) by (cbn; lia).
    split; [exact H|].
    exact (proj2 (proj2 (short_format_within_full MockTime.ticks_diff scenario_clock _)) H).
Defined.

(** * The application around the stopwatch *)

Lemma runState_bind_world {A B : Type} (c : state World A)
    (k : A -> state World B) (w : World) :
  runState (bind c k) w = runState (k (evalState c w)) (execState c w).
Proof.
  unfold evalState, execState. cbn. destruct (runState c w). reflexivity.
Qed.

(** ** Buttons *)

Lemma start_stop_area (x y : Z) :
  DisplayManager.is_button_touched x y "start_stop" = true
  <-> 50 <= x <= 150 /\ 180 <= y <= 220.
Proof.
  unfold DisplayManager.is_button_touched. cbn.
  rewrite !andb_true_iff, !Z.leb_le. lia.
Qed.

Lemma reset_area (x y : Z) :
  DisplayManager.is_button_touched x y "reset" = true
  <-> 170 <= x <= 270 /\ 180 <= y <= 220.
Proof.
  unfold DisplayManager.is_button_touched. cbn.
  rewrite !andb_true_iff, !Z.leb_le. lia.
Qed.

(** X11: a position touches at most one of the two buttons, and every
    position that touches a button lies on the 320 x 240 screen.  The
    bounds are inclusive on both sides: the start/stop button answers to
    x from 50 to 150 and y from 180 to 220, the reset button to x from
    170 to 270 and the same y. *)
Theorem buttons_disjoint_and_on_screen :
  forall x y : Z,
    (DisplayManager.is_button_touched x y "start_stop" = true
     <-> 50 <= x <= 150 /\ 180 <= y <= 220)
    /\ (DisplayManager.is_button_touched x y "reset" = true
        <-> 170 <= x <= 270 /\ 180 <= y <= 220)
    /\ DisplayManager.is_button_touched x y "start_stop"
       && DisplayManager.is_button_touched x y "reset" = false
    /\ (DisplayManager.is_button_touched x y "start_stop"
        || DisplayManager.is_button_touched x y "reset" = true ->
        0 <= x < DisplayManager.screen_width
        /\ 0 <= y < DisplayManager.screen_height).
Proof.
  intros x y.
  pose proof (start_stop_area x y) as Hs. pose proof (reset_area x y) as Hr.
  split; [exact Hs|]. split; [exact Hr|]. split.
  - destruct (DisplayManager.is_button_touched x y "start_stop");
      destruct (DisplayManager.is_button_touched x y "reset");
      try reflexivity.
    assert (50 <= x <= 150 /\ 180 <= y <= 220) by (apply Hs; reflexivity).
    assert (170 <= x <= 270 /\ 180 <= y <= 220) by (apply Hr; reflexivity).
    lia.
  - unfold DisplayManager.screen_width, DisplayManager.screen_height.
    intros H. apply orb_true_iff in H. destruct H as [H|H].
    + apply Hs in H. lia.
    + apply Hr in H. lia.
Qed.

Lemma buttons_disjoint_and_on_screen_witness :
  DisplayManager.is_button_touched 150 220 "start_stop"
  || DisplayManager.is_button_touched 150 220 "reset" = true
  /\ 0 <= 150 < DisplayManager.screen_width
  /\ 0 <= 220 < DisplayManager.screen_height.
Proof.
  split; [reflexivity|].
  apply (proj2 (proj2 (proj2 (buttons_disjoint_and_on_screen 150 220)))).
  reflexivity.
Defined.

(** X12: a button name that is not in the table is never touched,
    wherever the position is. *)
Theorem unknown_button_never_touched :
  forall (x y : Z) (button_name : string),
    button_name <> "start_stop" ->
    button_name <> "reset" ->
    DisplayManager.is_button_touched x y button_name = false.
Proof.
  intros x y button_name Hs Hr.
  unfold DisplayManager.is_button_touched, DisplayManager.buttons.
  cbn [DisplayManager.lookup].
  rewrite String.eqb_sym, (proj2 (String.eqb_neq _ _) Hs).
  rewrite String.eqb_sym, (proj2 (String.eqb_neq _ _) Hr).
  reflexivity.
Qed.

Lemma unknown_button_never_touched_witness :
  ("lap" <> "start_stop" /\ "lap" <> "reset")
  /\ DisplayManager.is_button_touched 60 190 "lap" = false.
Proof.
  assert (Hs : "lap" <> "start_stop") by discriminate.
  assert (Hr : "lap" <> "reset") by discriminate.
  split; [auto|].
  exact (unknown_button_never_touched 60 190 "lap" Hs Hr).
Defined.

(** ** One poll of the touch screen *)

Ltac break_world w :=
  destruct w as [[[st tot r] n out] [av lt db lp] polls [lr lg lb] ls ar].

Ltac split_ifs :=
  repeat (match goal with
          | |- context [if ?c then _ else _] => destruct c eqn:?
          end; cbn).

Ltac to_bounds :=
  repeat match goal with
         | H : _ && _ = true |- _ => apply andb_true_iff in H; destruct H
         | H : _ && _ = false |- _ => apply andb_false_iff in H
         | H : (_ <=? _)%Z = true |- _ => apply Z.leb_le in H
         | H : (_ <=? _)%Z = false |- _ => apply Z.leb_gt in H
         end.

(** X13: when the touch controller reports a position, one call of
    [handle_touch_input] acts on it as follows.  Inside the start/stop
    button the running flag flips, and the LED turns red after a stop,
    green after a start; inside the reset button the stopwatch is back
    in its constructor state and the LED is blue; anywhere else the
    stopwatch and the LED are untouched.  In every case the position
    kept from an earlier interrupt stays where it was. *)
Theorem touch_dispatch :
  forall (ticks_diff : Z -> Z -> Z) (clock : nat -> Z)
         (touch_hw : nat -> HwTouch) (w : World) (x y : Z),
    TouchHandler.touch_available (touch w) = true ->
    touch_hw (touch_polls w) = HwAt x y ->
    let w' := execState (handle_touch_input ticks_diff clock touch_hw) w in
    (50 <= x <= 150 /\ 180 <= y <= 220 ->
     running (self (sw_env w')) = negb (running (self (sw_env w)))
     /\ leds w' = (if running (self (sw_env w))
                   then {| red_led := 0; green_led := 1; blue_led := 1 |}
                   else {| red_led := 1; green_led := 0; blue_led := 1 |}))
    /\ (170 <= x <= 270 /\ 180 <= y <= 220 ->
        self (sw_env w') = __init__
        /\ leds w' = {| red_led := 1; green_led := 1; blue_led := 0 |})
    /\ (~ (50 <= x <= 150 /\ 180 <= y <= 220) ->
        ~ (170 <= x <= 270 /\ 180 <= y <= 220) ->
        self (sw_env w') = self (sw_env w) /\ leds w' = leds w)
    /\ touch w' = touch w.
Proof.
  intros ticks_diff clock touch_hw w x y Hav Hhw w'. subst w'.
  break_world w. cbn in Hav, Hhw. subst av.
  unfold execState, handle_touch_input, get_touch. cbn. rewrite Hhw. cbn.
  split; [|split; [|split]].
  - intros Harea. split; split_ifs; to_bounds; try reflexivity; lia.
  - intros Harea. split; split_ifs; to_bounds; try reflexivity; lia.
  - intros Hout1 Hout2. split; split_ifs; to_bounds; try reflexivity; lia.
  - split_ifs; reflexivity.
Qed.

Lemma touch_dispatch_witness :
  let hw := fun _ : nat => HwAt 100 200 in
  let w' := execState (handle_touch_input MockTime.ticks_diff steady_clock hw)
              ready_world in
  (TouchHandler.touch_available (touch ready_world) = true
   /\ hw (touch_polls ready_world) = HwAt 100 200
   /\ 50 <= 100 <= 150 /\ 180 <= 200 <= 220)
  /\ running (self (sw_env w')) = true
  /\ leds w' = {| red_led := 1; green_led := 0; blue_led := 1 |}.
Proof.
  cbv zeta. split; [repeat split; lia|].
  refine (proj1 (touch_dispatch MockTime.ticks_diff steady_clock
                   (fun _ => HwAt 100 200) ready_world 100 200 eq_refl eq_refl) _).
  lia.
Defined.

(** ** The LED follows the stopwatch *)

Section LedInvariant.

Variable ticks_diff : Z -> Z -> Z.
Variable clock : nat -> Z.
Variable touch_hw : nat -> HwTouch.

Ltac led_case :=
  solve [ left; split; reflexivity
        | right; left; split; reflexivity
        | right; right; split; reflexivity ].

Ltac known_leds H :=
  destruct H as [[Hl Hr]|[[Hl Hr]|[Hl Hr]]];
  cbn in Hl, Hr; inversion Hl; subst;
  try (unfold __init__ in Hr; inversion Hr; subst).

Lemma poll_keeps_led (w : World) :
  led_matches w ->
  led_matches (execState (handle_touch_input ticks_diff clock touch_hw) w).
Proof.
  intros H. unfold led_matches in H. break_world w.
  unfold led_matches, execState, handle_touch_input, get_touch. cbn.
  destruct av; cbn; [|known_leds H; led_case].
  destruct (touch_hw polls) as [| x y | message]; cbn.
  - destruct lp as [[x y]|]; cbn.
    + known_leds H; split_ifs; led_case.
    + known_leds H; led_case.
  - known_leds H; split_ifs; led_case.
  - known_leds H; led_case.
Qed.

Lemma interrupt_keeps_led (x y : Z) (w : World) :
  led_matches w ->
  led_matches (execState (_touch_interrupt ticks_diff clock x y) w).
Proof.
  intros H. unfold led_matches in H. break_world w.
  unfold led_matches, execState, _touch_interrupt. cbn.
  known_leds H; split_ifs; led_case.
Qed.

Lemma events_keep_led (evs : list Event) (w : World) :
  led_matches w ->
  led_matches (execState (handle_all ticks_diff clock touch_hw evs) w).
Proof.
  revert w. induction evs as [|ev rest IH]; intros w H.
  - exact H.
  - cbn [handle_all]. unfold execState. rewrite runState_bind_world.
    apply IH. destruct ev as [x y|]; cbn [handle].
    + apply interrupt_keeps_led, H.
    + apply poll_keeps_led, H.
Qed.

End LedInvariant.

(** X14: the LED keeps showing the state of the stopwatch.  If exactly
    one colour is lit, green over a running stopwatch, red over a stopped
    one, or blue over a stopwatch in its constructor state, then the same
    holds after any sequence of touch interrupts and polls of
    [handle_touch_input], whatever the touch controller reports; in
    particular green is lit exactly while the stopwatch runs. *)
Theorem led_follows_stopwatch :
  forall (ticks_diff : Z -> Z -> Z) (clock : nat -> Z)
         (touch_hw : nat -> HwTouch) (evs : list Event) (w : World),
    led_matches w ->
    let w' := execState (handle_all ticks_diff clock touch_hw evs) w in
    led_matches w'
    /\ (green_led (leds w') = 0 <-> running (self (sw_env w')) = true).
Proof.
  intros ticks_diff clock touch_hw evs w H w'.
  assert (H' : led_matches w') by (apply events_keep_led; exact H).
  split; [exact H'|].
  destruct H' as [[Hl Hr]|[[Hl Hr]|[Hl Hr]]]; rewrite Hl; cbn.
  - rewrite Hr. split; discriminate.
  - rewrite Hr. split; reflexivity.
  - rewrite Hr. cbn. split; discriminate.
Qed.

Lemma led_follows_stopwatch_witness :
  let hw := fun i : nat => nth i [HwAt 60 190; HwNone; HwAt 60 190] HwNone in
  let evs := [EvPoll; EvInterrupt 200 200; EvPoll; EvPoll; EvPoll] in
  led_matches ready_world
  /\ led_matches (execState (handle_all MockTime.ticks_diff steady_clock hw evs)
                    ready_world).
Proof.
  cbv zeta.
  assert (H : led_matches ready_world) by (right; right; split; reflexivity).
  split; [exact H|].
  exact (proj1 (led_follows_stopwatch MockTime.ticks_diff steady_clock
                  (fun i : nat => nth i [HwAt 60 190; HwNone; HwAt 60 190] HwNone)
                  [EvPoll; EvInterrupt 200 200; EvPoll; EvPoll; EvPoll]
                  ready_world H)).
Defined.

(** ** Reading the touch screen *)

(** X15: a position recorded by the interrupt handler is handed out
    once.  While the controller reports no touch, the first [get_touch]
    returns the recorded position (if there is one) and the next returns
    nothing. *)
Theorem pending_touch_delivered_once :
  forall (touch_hw : nat -> HwTouch) (w : World),
    TouchHandler.touch_available (touch w) = true ->
    touch_hw (touch_polls w) = HwNone ->
    touch_hw (S (touch_polls w)) = HwNone ->
    evalState (get_touch touch_hw) w = TouchHandler.last_touch_pos (touch w)
    /\ evalState (get_touch touch_hw) (execState (get_touch touch_hw) w) = None.
Proof.
  intros touch_hw w Hav H0 H1. break_world w. cbn in Hav, H0, H1. subst av.
  unfold evalState, execState, get_touch. cbn. rewrite H0. cbn.
  destruct lp as [[x y]|]; cbn; rewrite H1; cbn; split; reflexivity.
Qed.

Lemma pending_touch_delivered_once_witness :
  let hw := fun _ : nat => HwNone in
  let w := execState (_touch_interrupt MockTime.ticks_diff scenario_clock 7 9)
             {| sw_env := {| self := __init__; ticks_read := 1; stdout := [] |};
                touch := touch ready_world; touch_polls := 0;
                leds := leds ready_world; light_sensor := true; adc_reads := 0 |} in
  (TouchHandler.touch_available (touch w) = true
   /\ hw (touch_polls w) = HwNone /\ hw (S (touch_polls w)) = HwNone)
  /\ evalState (get_touch hw) w = Some (7, 9)
  /\ evalState (get_touch hw) (execState (get_touch hw) w) = None.
Proof.
  cbv zeta. split; [repeat split|].
  apply (pending_touch_delivered_once (fun _ => HwNone)); reflexivity.
Defined.

(** X16: a touch the controller reports takes precedence and leaves a
    recorded position in place for a later call; an exception from the
    controller is caught: [get_touch] returns nothing, prints the
    message and leaves the handler as it was; and without a touch
    controller [get_touch] returns nothing and changes nothing. *)
Theorem get_touch_edge_cases :
  forall (touch_hw : nat -> HwTouch) (w : World),
    (TouchHandler.touch_available (touch w) = false ->
     runState (get_touch touch_hw) w = (None, w))
    /\ (TouchHandler.touch_available (touch w) = true ->
        forall x y : Z, touch_hw (touch_polls w) = HwAt x y ->
        evalState (get_touch touch_hw) w = Some (x, y)
        /\ touch (execState (get_touch touch_hw) w) = touch w)
    /\ (TouchHandler.touch_available (touch w) = true ->
        forall message : string, touch_hw (touch_polls w) = HwError message ->
        evalState (get_touch touch_hw) w = None
        /\ touch (execState (get_touch touch_hw) w) = touch w
        /\ stdout (sw_env (execState (get_touch touch_hw) w))
           = (stdout (sw_env w)
              ++ [("Touch read error: " ++ message)%string])%list).
Proof.
  intros touch_hw w. break_world w.
  unfold evalState, execState, get_touch. cbn.
  split; [|split].
  - intros Hav. subst av. reflexivity.
  - intros Hav x y Hhw. subst av. cbn. rewrite Hhw. cbn. split; reflexivity.
  - intros Hav message Hhw. subst av. cbn. rewrite Hhw. cbn. repeat split.
Qed.

Lemma get_touch_edge_cases_witness :
  let hw := fun _ : nat => HwError "SPI timeout" in
  (TouchHandler.touch_available (touch ready_world) = true
   /\ hw (touch_polls ready_world) = HwError "SPI timeout")
  /\ evalState (get_touch hw) ready_world = None
  /\ stdout (sw_env (execState (get_touch hw) ready_world))
     = ["Touch read error: SPI timeout"].
Proof.
  cbv zeta. split; [split; reflexivity|].
  pose proof (proj2 (proj2 (get_touch_edge_cases (fun _ => HwError "SPI timeout")
                              ready_world)) eq_refl "SPI timeout" eq_refl) as H.
  destruct H as (Hnone & _ & Hout). split; [exact Hnone | exact Hout].
Defined.

(** X17: debouncing.  When an interrupt is accepted (the tick difference
    to the last accepted touch exceeds the debounce time) and the next
    interrupt comes within the debounce time of it, the second one is
    dropped: the recorded position and time are those of the first.
    Neither interrupt touches the stopwatch or the LED. *)
Theorem second_interrupt_debounced :
  forall (ticks_diff : Z -> Z -> Z) (clock : nat -> Z) (w : World)
         (x1 y1 x2 y2 : Z),
    let h := touch w in
    let n := ticks_read (sw_env w) in
    ticks_diff (clock n) (TouchHandler.last_touch_time h)
      > TouchHandler.touch_debounce h ->
    ticks_diff (clock (S n)) (clock n) <= TouchHandler.touch_debounce h ->
    let w' := execState (_touch_interrupt ticks_diff clock x1 y1 ;;
                         _touch_interrupt ticks_diff clock x2 y2) w in
    touch w' = {| TouchHandler.touch_available := TouchHandler.touch_available h;
                  TouchHandler.last_touch_time := clock n;
                  TouchHandler.touch_debounce := TouchHandler.touch_debounce h;
                  TouchHandler.last_touch_pos := Some (x1, y1) |}
    /\ self (sw_env w') = self (sw_env w)
    /\ leds w' = leds w.
Proof.
  intros ticks_diff clock w x1 y1 x2 y2 h n Hfirst Hsecond w'. subst h n w'.
  break_world w. cbn in Hfirst, Hsecond.
  unfold execState, _touch_interrupt. cbn.
  destruct (Z.gtb_spec (ticks_diff (clock n) lt) db) as [_|Hle]; [|lia]. cbn.
  destruct (Z.gtb_spec (ticks_diff (clock (S n)) (clock n)) db) as [Hgt|_]; [lia|].
  cbn. repeat split.
Qed.

Lemma second_interrupt_debounced_witness :
  let w := {| sw_env := {| self := __init__; ticks_read := 3; stdout := [] |};
              touch := touch ready_world; touch_polls := 0;
              leds := leds ready_world; light_sensor := true; adc_reads := 0 |} in
  let w' := execState (_touch_interrupt MockTime.ticks_diff steady_clock 10 20 ;;
                       _touch_interrupt MockTime.ticks_diff steady_clock 30 40) w in
  (MockTime.ticks_diff (steady_clock 3) 0 > 200
   /\ MockTime.ticks_diff (steady_clock 4) (steady_clock 3) <= 200)
  /\ TouchHandler.last_touch_pos (touch w') = Some (10, 20).
Proof.
  cbv zeta.
  assert (H1 : MockTime.ticks_diff (steady_clock 3) 0 > 200) by (cbn; lia).
  assert (H2 : MockTime.ticks_diff (steady_clock 4) (steady_clock 3) <= 200)
    by (cbn; lia).
  split; [split; assumption|].
  pose proof (second_interrupt_debounced MockTime.ticks_diff steady_clock
                {| sw_env := {| self := __init__; ticks_read := 3; stdout := [] |};
                   touch := touch ready_world; touch_polls := 0;
                   leds := leds ready_world; light_sensor := true; adc_reads := 0 |}
                10 20 30 40 H1 H2) as H.
  cbv zeta in H. destruct H as [Htouch _]. rewrite Htouch. reflexivity.
Defined.

(** X18: when the controller reports two positions in a row,
    [get_stable_touch] answers exactly when they are less than 20 apart
    in both coordinates, and its answer lies between the two readings
    in each coordinate (it is their mean, rounded down); otherwise it
    returns nothing. *)
Theorem stable_touch_between_readings :
  forall (touch_hw : nat -> HwTouch) (w : World) (x1 y1 x2 y2 : Z),
    TouchHandler.touch_available (touch w) = true ->
    touch_hw (touch_polls w) = HwAt x1 y1 ->
    touch_hw (S (touch_polls w)) = HwAt x2 y2 ->
    match evalState (get_stable_touch touch_hw) w with
    | Some (x, y) =>
        Z.abs (x1 - x2) < 20 /\ Z.abs (y1 - y2) < 20
        /\ x = (x1 + x2) / 2 /\ y = (y1 + y2) / 2
        /\ Z.min x1 x2 <= x <= Z.max x1 x2
        /\ Z.min y1 y2 <= y <= Z.max y1 y2
    | None => 20 <= Z.abs (x1 - x2) \/ 20 <= Z.abs (y1 - y2)
    end.
Proof.
  intros touch_hw w x1 y1 x2 y2 Hav H1 H2. break_world w.
  cbn in Hav, H1, H2. subst av.
  unfold evalState, get_stable_touch, get_touch. cbn. rewrite H1. cbn.
  rewrite H2. cbn.
  destruct (Z.ltb_spec (Z.abs (x1 - x2)) 20) as [Hx|Hx]; cbn.
  - destruct (Z.ltb_spec (Z.abs (y1 - y2)) 20) as [Hy|Hy]; cbn.
    + pose proof (Z.div_mod (x1 + x2) 2 ltac:(lia)).
      pose proof (Z.mod_pos_bound (x1 + x2) 2 ltac:(lia)).
      pose proof (Z.div_mod (y1 + y2) 2 ltac:(lia)).
      pose proof (Z.mod_pos_bound (y1 + y2) 2 ltac:(lia)).
      repeat split; lia.
    + right. exact Hy.
  - left. exact Hx.
Qed.

Lemma stable_touch_between_readings_witness :
  let hw := fun i : nat => nth i [HwAt 100 200; HwAt 105 191] HwNone in
  (TouchHandler.touch_available (touch ready_world) = true
   /\ hw (touch_polls ready_world) = HwAt 100 200
   /\ hw (S (touch_polls ready_world)) = HwAt 105 191)
  /\ evalState (get_stable_touch hw) ready_world = Some (102, 195).
Proof.
  cbv zeta. split; [repeat split|].
  pose proof (stable_touch_between_readings
                (fun i : nat => nth i [HwAt 100 200; HwAt 105 191] HwNone)
                ready_world 100 200 105 191 eq_refl eq_refl eq_refl) as H.
  destruct (evalState _ ready_world) as [[x y]|].
  - destruct H as (_ & _ & Hx & Hy & _). rewrite Hx, Hy. reflexivity.
  - exfalso. cbn in H. lia.
Defined.

(** ** The light sensor *)

Section LightSensor.

Variable adc : nat -> option Z.

Lemma take_readings_some (k : nat) (acc : list Z) (w : World) (vs : list Z) :
  List.length vs = k ->
  (forall i : nat, (i < k)%nat -> adc (adc_reads w + i) = Some (nth i vs 0)) ->
  evalState (take_readings adc k acc) w = Some (acc ++ vs)%list.
Proof.
  revert acc w vs. induction k as [|k IH]; intros acc w vs Hlen Hall.
  - destruct vs; [|discriminate]. cbn. rewrite app_nil_r. reflexivity.
  - destruct vs as [|v vs]; [discriminate|].
    cbn [take_readings]. unfold evalState. rewrite runState_bind_world.
    assert (Hv : evalState (read_adc adc) w = Some v).
    { destruct w. cbn. specialize (Hall 0%nat ltac:(lia)).
      cbn in Hall. rewrite Nat.add_0_r in Hall. exact Hall. }
    rewrite Hv.
    change (fst (runState ?c ?s)) with (evalState c s).
    rewrite (IH (acc ++ [v])%list _ vs).
    + rewrite <- app_assoc. reflexivity.
    + cbn in Hlen. lia.
    + intros i Hi. specialize (Hall (S i) ltac:(lia)).
      destruct w. cbn in *. rewrite <- Hall. f_equal. lia.
Qed.

Lemma take_readings_none (k : nat) (acc : list Z) (w : World) (i : nat) :
  (i < k)%nat ->
  adc (adc_reads w + i) = None ->
  evalState (take_readings adc k acc) w = None.
Proof.
  revert acc w i. induction k as [|k IH]; intros acc w i Hi Hnone; [lia|].
  cbn [take_readings]. unfold evalState. rewrite runState_bind_world.
  destruct (evalState (read_adc adc) w) as [v|] eqn:Hv; [|reflexivity].
  change (fst (runState ?c ?s)) with (evalState c s).
  destruct i as [|i].
  - destruct w. cbn in *. rewrite Nat.add_0_r in Hnone. congruence.
  - apply (IH _ _ i); [lia|].
    destruct w. cbn in *. rewrite <- Hnone. f_equal. lia.
Qed.

End LightSensor.

(** X19: with a light sensor whose next five readings succeed,
    [read_light_level] returns their sum divided by five, rounded down;
    when all five lie between two bounds, so does the result. *)
Theorem light_level_is_mean :
  forall (adc : nat -> option Z) (w : World) (r0 r1 r2 r3 r4 lo hi : Z),
    light_sensor w = true ->
    adc (adc_reads w) = Some r0 ->
    adc (adc_reads w + 1)%nat = Some r1 ->
    adc (adc_reads w + 2)%nat = Some r2 ->
    adc (adc_reads w + 3)%nat = Some r3 ->
    adc (adc_reads w + 4)%nat = Some r4 ->
    evalState (read_light_level adc) w = (r0 + r1 + r2 + r3 + r4) / 5
    /\ (lo <= r0 <= hi -> lo <= r1 <= hi -> lo <= r2 <= hi ->
        lo <= r3 <= hi -> lo <= r4 <= hi ->
        lo <= evalState (read_light_level adc) w <= hi).
Proof.
  intros adc w r0 r1 r2 r3 r4 lo hi Hls H0 H1 H2 H3 H4.
  assert (Hval : evalState (read_light_level adc) w = (r0 + r1 + r2 + r3 + r4) / 5).
  { unfold read_light_level, evalState. rewrite runState_bind_world.
    change (evalState get w) with w. rewrite Hls.
    rewrite runState_bind_world.
    change (execState get w) with w.
    rewrite (take_readings_some adc 5 [] w [r0; r1; r2; r3; r4]).
    - cbn. f_equal. lia.
    - reflexivity.
    - intros i Hi.
      destruct i as [|[|[|[|[|i]]]]]; cbn [nth]; try lia; try assumption.
      rewrite Nat.add_0_r. exact H0. }
  split; [exact Hval|].
  intros B0 B1 B2 B3 B4. rewrite Hval.
  pose proof (Z.div_mod (r0 + r1 + r2 + r3 + r4) 5 ltac:(lia)).
  pose proof (Z.mod_pos_bound (r0 + r1 + r2 + r3 + r4) 5 ltac:(lia)).
  lia.
Qed.

Lemma light_level_is_mean_witness :
  let adc := fun i : nat => Some (2040 + Z.of_nat i) in
  (light_sensor ready_world = true
   /\ adc (adc_reads ready_world + 4)%nat = Some 2044)
  /\ evalState (read_light_level adc) ready_world = 2042.
Proof.
  cbv zeta. split; [split; reflexivity|].
  exact (proj1 (light_level_is_mean (fun i : nat => Some (2040 + Z.of_nat i))
                  ready_world 2040 2041 2042 2043 2044 0 4095
                  eq_refl eq_refl eq_refl eq_refl eq_refl eq_refl)).
Defined.

(** X20: [read_light_level] returns 0 when there is no light sensor, and
    when any of the five readings raises; in the second case the
    readings taken before the failure are lost. *)
Theorem light_level_failure_gives_zero :
  forall (adc : nat -> option Z) (w : World),
    (light_sensor w = false -> runState (read_light_level adc) w = (0, w))
    /\ (forall i : nat, (i < 5)%nat -> adc (adc_reads w + i)%nat = None ->
        light_sensor w = true ->
        evalState (read_light_level adc) w = 0).
Proof.
  intros adc w. split.
  - intros Hls. destruct w. cbn in Hls. subst. reflexivity.
  - intros i Hi Hnone Hls.
    unfold read_light_level, evalState. rewrite runState_bind_world.
    change (evalState get w) with w. rewrite Hls.
    rewrite runState_bind_world. change (execState get w) with w.
    rewrite (take_readings_none adc 5 [] w i Hi Hnone). reflexivity.
Qed.

Lemma light_level_failure_gives_zero_witness :
  let adc := fun i : nat => if (i =? 3)%nat then None else Some 2048 in
  ((3 < 5)%nat /\ adc (adc_reads ready_world + 3)%nat = None
   /\ light_sensor ready_world = true)
  /\ evalState (read_light_level adc) ready_world = 0.
Proof.
  cbv zeta. split; [repeat split; lia|].
  apply (proj2 (light_level_failure_gives_zero
                  (fun i : nat => if (i =? 3)%nat then None else Some 2048)
                  ready_world) 3%nat); [lia | reflexivity | reflexivity].
Defined.

(** ** Statistics after a stop, and the LED states *)

Lemma whole_seconds_positive (t : Z) : (t / 1000 >? 0)%Z = (1000 <=? t)%Z.
Proof.
  pose proof (Z.div_mod t 1000 ltac:(lia)) as H.
  pose proof (Z.mod_pos_bound t 1000 ltac:(lia)) as B.
  destruct (Z.leb_spec 1000 t); destruct (Z.gtb_spec (t / 1000) 0);
    try reflexivity; lia.
Qed.

(** X21: [show_statistics] prints its line exactly when the stopwatch is
    not running and has accumulated at least one full second; the line
    is "Session Statistics: Total: " followed by [format_time_string] of
    the total.  It never reads the clock and changes nothing but the
    output. *)
Theorem statistics_line :
  forall (ticks_diff : Z -> Z -> Z) (clock : nat -> Z) (w : World),
    let w' := execState (show_statistics ticks_diff clock) w in
    let total := total_elapsed (self (sw_env w)) in
    self (sw_env w') = self (sw_env w)
    /\ ticks_read (sw_env w') = ticks_read (sw_env w)
    /\ leds w' = leds w
    /\ touch w' = touch w
    /\ stdout (sw_env w')
       = if negb (running (self (sw_env w))) && (1000 <=? total)%Z
         then (stdout (sw_env w)
               ++ [("Session Statistics: Total: " ++ format_time_string total)%string])%list
         else stdout (sw_env w).
Proof.
  intros ticks_diff clock w w' total. subst w' total. break_world w.
  unfold execState, show_statistics. cbn.
  destruct r; cbn; [repeat split|].
  destruct (Z.gtb_spec tot 0) as [Hpos|Hneg]; cbn.
  - rewrite whole_seconds_positive.
    destruct (Z.leb_spec 1000 tot); cbn; repeat split.
  - destruct (Z.leb_spec 1000 tot); [lia|]. repeat split.
Qed.

(** X22: whatever the LED showed before, [set_led_state] leaves exactly
    the blue pin low for 'ready', the green pin low for 'running' and the
    red pin low for 'stopped' (the LED is active low), and all three pins
    high, the LED dark, for any other name; nothing else changes. *)
Theorem led_state_closed_form :
  forall (state_name : string) (w : World),
    let w' := execState (set_led_state state_name) w in
    leds w'
    = (if String.eqb state_name "ready"
       then {| red_led := 1; green_led := 1; blue_led := 0 |}
       else if String.eqb state_name "running"
       then {| red_led := 1; green_led := 0; blue_led := 1 |}
       else if String.eqb state_name "stopped"
       then {| red_led := 0; green_led := 1; blue_led := 1 |}
       else {| red_led := 1; green_led := 1; blue_led := 1 |})
    /\ sw_env w' = sw_env w
    /\ touch w' = touch w.
Proof.
  intros state_name w w'. subst w'. break_world w.
  unfold execState, set_led_state. cbn.
  destruct (String.eqb state_name "ready"); cbn; [repeat split|].
  destruct (String.eqb state_name "running"); cbn; [repeat split|].
  destruct (String.eqb state_name "stopped"); cbn; repeat split.
Qed.
